(** * main_single_low_current.c: IADC single conversions drained by LDMA in EM2

    The program is a sequence of calls into the vendor's peripheral library
    (emlib) and of direct register accesses, with busy-wait loops on
    hardware inputs and one interrupt handler.  It is embedded as

    - an [event] per library call or register access, with the arguments the
      source passes; the [trace] of an execution is the list of its events;
    - one state-passing function per C function ([initIADC], [initLDMA],
      [LDMA_IRQHandler], ...), appending its events to the trace and updating
      the global [descriptor]; a function with a loop is cut at the loop;
    - a transition function [step] whose control points are the places where
      [main] waits for the hardware: the two button loops (lines 379-380),
      the two oscillator loops (lines 288 and 305), the sleep inside
      [EMU_EnterEM2] (line 360) and the final [while(1)] (line 409).

    What the hardware does next is the [input] of a step: the CPU runs to
    its next waiting point and polls some readings, or the LDMA stores a
    sample in [singleBuffer], or the LDMA raises its interrupt.  The last two
    are what the source says the LDMA does once started (lines 3-6, 44-45,
    85-86 and 247); how many samples it stores and where is the engine's
    business and is left to the input.  The hardware acts between two
    stretches of straight-line code, not inside one.

    Library initialisers ([IADC_INIT_DEFAULT], ...) and helper functions whose
    bodies live in the vendor headers are kept symbolic: a struct is the
    initialiser it was copied from together with the members the program
    assigned afterwards. *)

From stdpp Require Import base list.
From Stdlib Require Import ZArith Lia.

Local Open Scope Z_scope.

(** ** Constants of the source (DEFINES, lines 112-135) *)

Definition NUM_SAMPLES : Z := 1024.
Definition CLK_SRC_ADC_FREQ : Z := 1000000.
Definition CLK_ADC_FREQ : Z := 1000000.
Definition TIMER_CYCLES : Z := 10000.
Definition PB_PRESSED : Z := 0.

(** ** Vendor enumerations and handles, restricted to the members the
       program names *)

Inductive GPIO_Port_TypeDef := gpioPortB | gpioPortD.
Inductive GPIO_Mode_TypeDef :=
  gpioModeDisabled | gpioModeInputPullFilter | gpioModePushPull.
Inductive CMU_Clock_TypeDef :=
  cmuClock_IADCCLK | cmuClock_SYSCLK | cmuClock_RTCCCLK.
Inductive CMU_Select_TypeDef :=
  cmuSelect_HFRCOEM23 | cmuSelect_FSRCO | cmuSelect_LFRCO | cmuSelect_LFXO.
Inductive CMU_HFRCOEM23Freq_TypeDef := cmuHFRCOEM23Freq_1M0Hz.
Inductive IADC_TypeDef := IADC0.
Inductive IADC_Cmd_t := iadcCmdStopSingle | iadcCmdEnableTimer.
Inductive IADC_Warmup_t := iadcWarmupNormal.
Inductive IADC_CfgReference_t := iadcCfgReferenceVddx.
Inductive IADC_CfgAdcMode_t := iadcCfgModeNormal.
Inductive IADC_TriggerSel_t := iadcTriggerSelTimer.
Inductive IADC_DataValidLevel := _IADC_SINGLEFIFOCFG_DVL_VALID1.
Inductive IADC_PosInput_t := iadcPosInputPortCPin4.
Inductive IADC_NegInput_t := iadcNegInputGnd.
Inductive LDMA_CtrlSize_t := ldmaCtrlSizeWord.
Inductive LDMA_PeripheralSignal_t := ldmaPeripheralSignal_IADC0_IADC_SINGLE.
Inductive LDMA_IF := LDMA_IF_DONE0.
Inductive RTCC_CntPresc_TypeDef := rtccCntPresc_256.

(** Addresses the program passes around. *)
Inductive address :=
  | addr_singleBuffer            (* singleBuffer, line 145 *)
  | addr_IADC0_SINGLEFIFODATA    (* &IADC0->SINGLEFIFODATA *)
  | SRAM_BASE.

(** Peripherals whose [EN_CLR] register the program writes, and oscillators
    whose [STATUS] register it reads. *)
Inductive peripheral :=
  | USART0 | USART1 | USART2 | TIMER0 | TIMER1 | TIMER2 | TIMER3
  | ACMP0 | ACMP1 | I2C0 | I2C1 | GPCRC
  | RTCC | WDOG0 | WDOG1 | LETIMER0 | BURTC.
Inductive oscillator := HFRCO0 | HFXO0 | LFRCO | LFXO.

(** Results of the two vendor helpers that compute prescalers (lines 168 and
    179): kept as the call that produced them. *)
Inductive IADC_srcPrescale :=
  | IADC_calcSrcClkPrescale (iadc : IADC_TypeDef) (srcClkFreq cmuClkFreq : Z).
Inductive IADC_adcPrescale :=
  | IADC_calcAdcClkPrescale (iadc : IADC_TypeDef) (adcClkFreq cmuClkFreq : Z)
      (adcMode : IADC_CfgAdcMode_t) (srcClkPrescaler : option IADC_srcPrescale).

(** ** Structs: the initialiser plus the members assigned by the program.
       [None] stands for "as the initialiser left it". *)

Inductive IADC_Init_initializer := IADC_INIT_DEFAULT_.
Record IADC_Init_t := {
  IADC_Init_of : IADC_Init_initializer;
  warmup : option IADC_Warmup_t;
  srcClkPrescale : option IADC_srcPrescale;
  timerCycles : option Z }.

Inductive IADC_AllConfigs_initializer := IADC_ALLCONFIGS_DEFAULT_.
Record IADC_AllConfigs_t := {
  IADC_AllConfigs_of : IADC_AllConfigs_initializer;
  configs0_reference : option IADC_CfgReference_t;   (* configs[0].reference *)
  configs0_adcClkPrescale : option IADC_adcPrescale }.  (* configs[0].adcClkPrescale *)

Inductive IADC_InitSingle_initializer := IADC_INITSINGLE_DEFAULT_.
Record IADC_InitSingle_t := {
  IADC_InitSingle_of : IADC_InitSingle_initializer;
  triggerSelect : option IADC_TriggerSel_t;
  dataValidLevel : option IADC_DataValidLevel;
  start : option bool;
  fifoDmaWakeup : option bool }.

Inductive IADC_SingleInput_initializer := IADC_SINGLEINPUT_DEFAULT_.
Record IADC_SingleInput_t := {
  IADC_SingleInput_of : IADC_SingleInput_initializer;
  posInput : option IADC_PosInput_t;
  negInput : option IADC_NegInput_t }.

Inductive LDMA_Init_t := LDMA_INIT_DEFAULT.
Inductive LDMA_TransferCfg_t :=
  LDMA_TRANSFER_CFG_PERIPHERAL (signal : LDMA_PeripheralSignal_t).

Inductive LDMA_Descriptor_initializer :=
  | LDMA_static_zero   (* a global before any assignment *)
  | LDMA_DESCRIPTOR_LINKREL_P2M_BYTE_ (src dest : address) (count linkjmp : Z).
Record LDMA_Descriptor_t := {
  LDMA_Descriptor_of : LDMA_Descriptor_initializer;
  xfer_size : option LDMA_CtrlSize_t;
  xfer_decLoopCnt : option Z;
  xfer_xferCnt : option Z;
  xfer_doneIfs : option Z;
  xfer_ignoreSrec : option Z }.

Inductive RTCC_Init_initializer := RTCC_INIT_DEFAULT_.
Record RTCC_Init_TypeDef := {
  RTCC_Init_of : RTCC_Init_initializer;
  presc : option RTCC_CntPresc_TypeDef;
  cntWrapOnCCV1 : option bool }.

Inductive EMU_EM23Init_TypeDef := EMU_EM23INIT_DEFAULT.
Inductive CMU_HFXOInit_TypeDef := CMU_HFXOINIT_WSTK_DEFAULT.

Definition IADC_INIT_DEFAULT : IADC_Init_t :=
  {| IADC_Init_of := IADC_INIT_DEFAULT_; warmup := None;
     srcClkPrescale := None; timerCycles := None |}.
Definition IADC_ALLCONFIGS_DEFAULT : IADC_AllConfigs_t :=
  {| IADC_AllConfigs_of := IADC_ALLCONFIGS_DEFAULT_;
     configs0_reference := None; configs0_adcClkPrescale := None |}.
Definition IADC_INITSINGLE_DEFAULT : IADC_InitSingle_t :=
  {| IADC_InitSingle_of := IADC_INITSINGLE_DEFAULT_; triggerSelect := None;
     dataValidLevel := None; start := None; fifoDmaWakeup := None |}.
Definition IADC_SINGLEINPUT_DEFAULT : IADC_SingleInput_t :=
  {| IADC_SingleInput_of := IADC_SINGLEINPUT_DEFAULT_;
     posInput := None; negInput := None |}.
Definition LDMA_DESCRIPTOR_LINKREL_P2M_BYTE
    (src dest : address) (count linkjmp : Z) : LDMA_Descriptor_t :=
  {| LDMA_Descriptor_of := LDMA_DESCRIPTOR_LINKREL_P2M_BYTE_ src dest count linkjmp;
     xfer_size := None; xfer_decLoopCnt := None; xfer_xferCnt := None;
     xfer_doneIfs := None; xfer_ignoreSrec := None |}.
Definition RTCC_INIT_DEFAULT : RTCC_Init_TypeDef :=
  {| RTCC_Init_of := RTCC_INIT_DEFAULT_; presc := None; cntWrapOnCCV1 := None |}.

(** Member assignments [s.member = v]. *)
Definition set_warmup v (s : IADC_Init_t) : IADC_Init_t :=
  {| IADC_Init_of := IADC_Init_of s; warmup := Some v;
     srcClkPrescale := srcClkPrescale s; timerCycles := timerCycles s |}.
Definition set_srcClkPrescale v (s : IADC_Init_t) : IADC_Init_t :=
  {| IADC_Init_of := IADC_Init_of s; warmup := warmup s;
     srcClkPrescale := Some v; timerCycles := timerCycles s |}.
Definition set_timerCycles v (s : IADC_Init_t) : IADC_Init_t :=
  {| IADC_Init_of := IADC_Init_of s; warmup := warmup s;
     srcClkPrescale := srcClkPrescale s; timerCycles := Some v |}.
Definition set_configs0_reference v (s : IADC_AllConfigs_t) : IADC_AllConfigs_t :=
  {| IADC_AllConfigs_of := IADC_AllConfigs_of s; configs0_reference := Some v;
     configs0_adcClkPrescale := configs0_adcClkPrescale s |}.
Definition set_configs0_adcClkPrescale v (s : IADC_AllConfigs_t) : IADC_AllConfigs_t :=
  {| IADC_AllConfigs_of := IADC_AllConfigs_of s;
     configs0_reference := configs0_reference s;
     configs0_adcClkPrescale := Some v |}.
Definition set_triggerSelect v (s : IADC_InitSingle_t) : IADC_InitSingle_t :=
  {| IADC_InitSingle_of := IADC_InitSingle_of s; triggerSelect := Some v;
     dataValidLevel := dataValidLevel s; start := start s;
     fifoDmaWakeup := fifoDmaWakeup s |}.
Definition set_dataValidLevel v (s : IADC_InitSingle_t) : IADC_InitSingle_t :=
  {| IADC_InitSingle_of := IADC_InitSingle_of s; triggerSelect := triggerSelect s;
     dataValidLevel := Some v; start := start s;
     fifoDmaWakeup := fifoDmaWakeup s |}.
Definition set_start v (s : IADC_InitSingle_t) : IADC_InitSingle_t :=
  {| IADC_InitSingle_of := IADC_InitSingle_of s; triggerSelect := triggerSelect s;
     dataValidLevel := dataValidLevel s; start := Some v;
     fifoDmaWakeup := fifoDmaWakeup s |}.
Definition set_fifoDmaWakeup v (s : IADC_InitSingle_t) : IADC_InitSingle_t :=
  {| IADC_InitSingle_of := IADC_InitSingle_of s; triggerSelect := triggerSelect s;
     dataValidLevel := dataValidLevel s; start := start s;
     fifoDmaWakeup := Some v |}.
Definition set_posInput v (s : IADC_SingleInput_t) : IADC_SingleInput_t :=
  {| IADC_SingleInput_of := IADC_SingleInput_of s; posInput := Some v;
     negInput := negInput s |}.
Definition set_negInput v (s : IADC_SingleInput_t) : IADC_SingleInput_t :=
  {| IADC_SingleInput_of := IADC_SingleInput_of s; posInput := posInput s;
     negInput := Some v |}.
Definition set_xfer_size v (d : LDMA_Descriptor_t) : LDMA_Descriptor_t :=
  {| LDMA_Descriptor_of := LDMA_Descriptor_of d; xfer_size := Some v;
     xfer_decLoopCnt := xfer_decLoopCnt d; xfer_xferCnt := xfer_xferCnt d;
     xfer_doneIfs := xfer_doneIfs d; xfer_ignoreSrec := xfer_ignoreSrec d |}.
Definition set_xfer_decLoopCnt v (d : LDMA_Descriptor_t) : LDMA_Descriptor_t :=
  {| LDMA_Descriptor_of := LDMA_Descriptor_of d; xfer_size := xfer_size d;
     xfer_decLoopCnt := Some v; xfer_xferCnt := xfer_xferCnt d;
     xfer_doneIfs := xfer_doneIfs d; xfer_ignoreSrec := xfer_ignoreSrec d |}.
Definition set_xfer_xferCnt v (d : LDMA_Descriptor_t) : LDMA_Descriptor_t :=
  {| LDMA_Descriptor_of := LDMA_Descriptor_of d; xfer_size := xfer_size d;
     xfer_decLoopCnt := xfer_decLoopCnt d; xfer_xferCnt := Some v;
     xfer_doneIfs := xfer_doneIfs d; xfer_ignoreSrec := xfer_ignoreSrec d |}.
Definition set_xfer_doneIfs v (d : LDMA_Descriptor_t) : LDMA_Descriptor_t :=
  {| LDMA_Descriptor_of := LDMA_Descriptor_of d; xfer_size := xfer_size d;
     xfer_decLoopCnt := xfer_decLoopCnt d; xfer_xferCnt := xfer_xferCnt d;
     xfer_doneIfs := Some v; xfer_ignoreSrec := xfer_ignoreSrec d |}.
Definition set_xfer_ignoreSrec v (d : LDMA_Descriptor_t) : LDMA_Descriptor_t :=
  {| LDMA_Descriptor_of := LDMA_Descriptor_of d; xfer_size := xfer_size d;
     xfer_decLoopCnt := xfer_decLoopCnt d; xfer_xferCnt := xfer_xferCnt d;
     xfer_doneIfs := xfer_doneIfs d; xfer_ignoreSrec := Some v |}.
Definition set_presc v (s : RTCC_Init_TypeDef) : RTCC_Init_TypeDef :=
  {| RTCC_Init_of := RTCC_Init_of s; presc := Some v;
     cntWrapOnCCV1 := cntWrapOnCCV1 s |}.
Definition set_cntWrapOnCCV1 v (s : RTCC_Init_TypeDef) : RTCC_Init_TypeDef :=
  {| RTCC_Init_of := RTCC_Init_of s; presc := presc s;
     cntWrapOnCCV1 := Some v |}.

(** ** Events: one per library call or register access *)

Inductive event :=
  | CHIP_Init
  | GPIO_PinModeSet (port : GPIO_Port_TypeDef) (pin : Z)
      (mode : GPIO_Mode_TypeDef) (out : Z)
  | GPIO_PinInGet (port : GPIO_Port_TypeDef) (pin : Z) (result : Z)
  | GPIO_PinOutSet (port : GPIO_Port_TypeDef) (pin : Z)
  | EMU_EM23Init (em23Init : EMU_EM23Init_TypeDef)
  | CMU_HFXOInit (hfxoInit : CMU_HFXOInit_TypeDef)
  | CMU_HFRCOEM23BandSet (freq : CMU_HFRCOEM23Freq_TypeDef)
  | CMU_ClockSelectSet (clock : CMU_Clock_TypeDef) (ref : CMU_Select_TypeDef)
  | IADC_reset (iadc : IADC_TypeDef)
  | IADC_init (iadc : IADC_TypeDef) (init : IADC_Init_t)
      (allConfigs : IADC_AllConfigs_t)
  | IADC_initSingle (iadc : IADC_TypeDef) (init : IADC_InitSingle_t)
      (input : IADC_SingleInput_t)
  | IADC_command (iadc : IADC_TypeDef) (cmd : IADC_Cmd_t)
  | LDMA_Init (init : LDMA_Init_t)
  | LDMA_StartTransfer (ch : Z) (transfer : LDMA_TransferCfg_t)
      (desc : LDMA_Descriptor_t)
  | LDMA_IntClear (flags : LDMA_IF)
  | RTCC_Init (init : RTCC_Init_TypeDef)
  | EMU_RamPowerDown (start : address) (end_ : Z)
  | EMU_EnterEM2 (restore : bool)
  | EN_CLR_write (p : peripheral) (v : Z)       (* p->EN_CLR = v *)
  | STATUS_read (o : oscillator) (v : Z).       (* o->STATUS, read as v *)

(** ** Machine state *)

(** Where [main] is waiting.  [WaitHF] and [WaitLF] are inside a call
    [em_EM2_RTCC osc powerdownRam] and remember its arguments. *)
Inductive control :=
  | Reset                                                  (* before line 372 *)
  | WaitPress                                              (* loop of line 379 *)
  | WaitRelease                                            (* loop of line 380 *)
  | WaitHF (osc : CMU_Select_TypeDef) (powerdownRam : bool)  (* loop of line 288 *)
  | WaitLF (osc : CMU_Select_TypeDef) (powerdownRam : bool)  (* loop of line 305 *)
  | Sleeping                                               (* in EMU_EnterEM2, line 360 *)
  | Halt.                                                  (* loop of line 409 *)

Record machine := {
  ctl : control;
  trace : list event;                 (* oldest event first *)
  descriptor : LDMA_Descriptor_t;     (* global, line 142 *)
  singleBuffer : list Z }.            (* global, line 145 *)

Definition call (e : event) (m : machine) : machine :=
  {| ctl := ctl m; trace := trace m ++ [e];
     descriptor := descriptor m; singleBuffer := singleBuffer m |}.
Definition goto (c : control) (m : machine) : machine :=
  {| ctl := c; trace := trace m;
     descriptor := descriptor m; singleBuffer := singleBuffer m |}.
Definition set_descriptor (d : LDMA_Descriptor_t) (m : machine) : machine :=
  {| ctl := ctl m; trace := trace m;
     descriptor := d; singleBuffer := singleBuffer m |}.
Definition set_singleBuffer (b : list Z) (m : machine) : machine :=
  {| ctl := ctl m; trace := trace m;
     descriptor := descriptor m; singleBuffer := b |}.

(** State at reset: globals are zero-initialised. *)
Definition reset_state : machine :=
  {| ctl := Reset; trace := [];
     descriptor :=
       {| LDMA_Descriptor_of := LDMA_static_zero; xfer_size := None;
          xfer_decLoopCnt := None; xfer_xferCnt := None;
          xfer_doneIfs := None; xfer_ignoreSrec := None |};
     singleBuffer := replicate (Z.to_nat NUM_SAMPLES) 0 |}.

(** ** The program *)

Section Program.

(** Bit masks of the vendor's device header, used at line 288-289. *)
Variables _HFRCO_STATUS_ENS_MASK _HFXO_STATUS_ENS_MASK : Z.

(** [initIADC], lines 150-204. *)
Definition initIADC (m : machine) : machine :=
  let init := IADC_INIT_DEFAULT in
  let initAllConfigs := IADC_ALLCONFIGS_DEFAULT in
  let initSingle := IADC_INITSINGLE_DEFAULT in
  let initSingleInput := IADC_SINGLEINPUT_DEFAULT in
  let m := call (IADC_reset IADC0) m in
  let m := call (CMU_ClockSelectSet cmuClock_IADCCLK cmuSelect_HFRCOEM23) m in
  let init := set_warmup iadcWarmupNormal init in
  let init :=
    set_srcClkPrescale (IADC_calcSrcClkPrescale IADC0 CLK_SRC_ADC_FREQ 0) init in
  let init := set_timerCycles TIMER_CYCLES init in
  let initAllConfigs :=
    set_configs0_reference iadcCfgReferenceVddx initAllConfigs in
  let initAllConfigs :=
    set_configs0_adcClkPrescale
      (IADC_calcAdcClkPrescale IADC0 CLK_ADC_FREQ 0 iadcCfgModeNormal
         (srcClkPrescale init))
      initAllConfigs in
  let initSingle := set_triggerSelect iadcTriggerSelTimer initSingle in
  let initSingle :=
    set_dataValidLevel _IADC_SINGLEFIFOCFG_DVL_VALID1 initSingle in
  let initSingle := set_start true initSingle in
  let initSingle := set_fifoDmaWakeup true initSingle in
  let initSingleInput := set_posInput iadcPosInputPortCPin4 initSingleInput in
  let initSingleInput := set_negInput iadcNegInputGnd initSingleInput in
  let m := call (IADC_init IADC0 init initAllConfigs) m in
  call (IADC_initSingle IADC0 initSingle initSingleInput) m.

(** [initLDMA], lines 215-249. *)
Definition initLDMA (buffer : address) (size : Z) (m : machine) : machine :=
  let init := LDMA_INIT_DEFAULT in
  let transferCfg :=
    LDMA_TRANSFER_CFG_PERIPHERAL ldmaPeripheralSignal_IADC0_IADC_SINGLE in
  let xfer :=
    LDMA_DESCRIPTOR_LINKREL_P2M_BYTE addr_IADC0_SINGLEFIFODATA buffer size 1 in
  let m := set_descriptor xfer m in
  let m := set_descriptor (set_xfer_size ldmaCtrlSizeWord (descriptor m)) m in
  let m := set_descriptor (set_xfer_decLoopCnt 1 (descriptor m)) m in
  let m := set_descriptor (set_xfer_xferCnt NUM_SAMPLES (descriptor m)) m in
  let m := set_descriptor (set_xfer_doneIfs 1 (descriptor m)) m in
  let m := set_descriptor (set_xfer_ignoreSrec 0 (descriptor m)) m in
  let m := call (LDMA_Init init) m in
  call (LDMA_StartTransfer 0 transferCfg (descriptor m)) m.

(** [LDMA_IRQHandler], lines 254-264. *)
Definition LDMA_IRQHandler (m : machine) : machine :=
  let m := call (LDMA_IntClear LDMA_IF_DONE0) m in
  let m := call (IADC_command IADC0 iadcCmdStopSingle) m in
  call (GPIO_PinOutSet gpioPortB 1) m.

(** Hardware values a polling loop may read in one evaluation of its
    condition. *)
Record readings := {
  pb0 : Z;             (* GPIO_PinInGet(gpioPortD, 2) *)
  hfrco0_status : Z;   (* HFRCO0->STATUS *)
  hfxo0_status : Z;    (* HFXO0->STATUS *)
  lfrco_status : Z;    (* LFRCO->STATUS *)
  lfxo_status : Z }.   (* LFXO->STATUS *)

(** [disableHFClocks], lines 269-290: the statements before the loop, and one
    evaluation of the loop condition ([||] reads HFXO0 only when the first
    test is false).  The boolean says whether the loop goes round again. *)
Definition disableHFClocks_writes (m : machine) : machine :=
  let m := call (EN_CLR_write USART0 1) m in
  let m := call (EN_CLR_write USART1 1) m in
  let m := call (EN_CLR_write USART2 1) m in
  let m := call (EN_CLR_write TIMER0 1) m in
  let m := call (EN_CLR_write TIMER1 1) m in
  let m := call (EN_CLR_write TIMER2 1) m in
  let m := call (EN_CLR_write TIMER3 1) m in
  let m := call (EN_CLR_write ACMP0 1) m in
  let m := call (EN_CLR_write ACMP1 1) m in
  let m := call (EN_CLR_write I2C0 1) m in
  let m := call (EN_CLR_write I2C1 1) m in
  let m := call (EN_CLR_write GPCRC 1) m in
  call (CMU_ClockSelectSet cmuClock_SYSCLK cmuSelect_FSRCO) m.

Definition disableHFClocks_cond (r : readings) (m : machine) : machine * bool :=
  let m := call (STATUS_read HFRCO0 (hfrco0_status r)) m in
  if negb (Z.land (hfrco0_status r) _HFRCO_STATUS_ENS_MASK =? 0) then (m, true)
  else
    let m := call (STATUS_read HFXO0 (hfxo0_status r)) m in
    (m, negb (Z.land (hfxo0_status r) _HFXO_STATUS_ENS_MASK =? 0)).

(** [disableLFClocks], lines 295-306: likewise ([&&] reads LFXO only when the
    first test is true). *)
Definition disableLFClocks_writes (m : machine) : machine :=
  let m := call (EN_CLR_write RTCC 1) m in
  let m := call (EN_CLR_write WDOG0 1) m in
  let m := call (EN_CLR_write WDOG1 1) m in
  let m := call (EN_CLR_write LETIMER0 1) m in
  call (EN_CLR_write BURTC 1) m.

Definition disableLFClocks_cond (r : readings) (m : machine) : machine * bool :=
  let m := call (STATUS_read LFRCO (lfrco_status r)) m in
  if negb (lfrco_status r =? 0) then
    let m := call (STATUS_read LFXO (lfxo_status r)) m in
    (m, negb (lfxo_status r =? 0))
  else (m, false).

(** [em_EM2_RTCC], lines 339-361.  It starts with [disableClocks] (lines
    311-318), that is [disableHFClocks] then [disableLFClocks]; control
    stops at the first loop.  [em_EM2_RTCC_rest] is lines 345-360, up to the
    point where the CPU is asleep inside [EMU_EnterEM2]. *)
Definition em_EM2_RTCC (osc : CMU_Select_TypeDef) (powerdownRam : bool)
    (m : machine) : machine :=
  goto (WaitHF osc powerdownRam) (disableHFClocks_writes m).

Definition em_EM2_RTCC_rest (osc : CMU_Select_TypeDef) (powerdownRam : bool)
    (m : machine) : machine :=
  let m := call (CMU_ClockSelectSet cmuClock_RTCCCLK osc) m in
  let rtccInit := RTCC_INIT_DEFAULT in
  let rtccInit := set_presc rtccCntPresc_256 rtccInit in
  let rtccInit := set_cntWrapOnCCV1 true rtccInit in
  let m := call (RTCC_Init rtccInit) m in
  let m := if powerdownRam then call (EMU_RamPowerDown SRAM_BASE 0) m else m in
  goto Sleeping (call (EMU_EnterEM2 true) m).

(** [main], lines 366-410: the statements before the first loop, and those
    between the second loop and the call of [em_EM2_RTCC]. *)
Definition main_begin (m : machine) : machine :=
  let em23Init := EMU_EM23INIT_DEFAULT in
  let hfxoInit := CMU_HFXOINIT_WSTK_DEFAULT in
  let m := call CHIP_Init m in
  call (GPIO_PinModeSet gpioPortD 2 gpioModeInputPullFilter 1) m.

Definition main_pipeline (m : machine) : machine :=
  let em23Init := EMU_EM23INIT_DEFAULT in
  let hfxoInit := CMU_HFXOINIT_WSTK_DEFAULT in
  let m := call (GPIO_PinModeSet gpioPortD 2 gpioModeDisabled 1) m in
  let m := call (GPIO_PinModeSet gpioPortB 1 gpioModePushPull 0) m in
  let m := call (EMU_EM23Init em23Init) m in
  let m := call (CMU_HFXOInit hfxoInit) m in
  let m := call (CMU_HFRCOEM23BandSet cmuHFRCOEM23Freq_1M0Hz) m in
  let m := initIADC m in
  let m := initLDMA addr_singleBuffer NUM_SAMPLES m in
  let m := call (IADC_command IADC0 iadcCmdEnableTimer) m in
  em_EM2_RTCC cmuSelect_LFRCO false m.

(** What the hardware does next. *)
Inductive input :=
  | Run (r : readings)
      (* the CPU runs [main] up to its next waiting point; a polling loop
         reads [r] *)
  | LdmaStore (i : nat) (sample : Z)
      (* the LDMA moves one 32-bit word from the IADC FIFO to singleBuffer[i] *)
  | LdmaDone.
      (* the LDMA raises its interrupt: LDMA_IRQHandler runs *)

(** The LDMA acts only once [LDMA_StartTransfer] has been called (line 248);
    before that its inputs have no effect. *)
Definition is_LDMA_StartTransfer (e : event) : bool :=
  match e with LDMA_StartTransfer _ _ _ => true | _ => false end.
Definition transfer_started (m : machine) : bool :=
  existsb is_LDMA_StartTransfer (trace m).

(** One step of [main]. *)
Definition main_step (r : readings) (m : machine) : machine :=
  match ctl m with
  | Reset => goto WaitPress (main_begin m)
  | WaitPress =>
      (* while(GPIO_PinInGet(gpioPortD, 2) != PB_PRESSED); *)
      let m := call (GPIO_PinInGet gpioPortD 2 (pb0 r)) m in
      if negb (pb0 r =? PB_PRESSED) then m else goto WaitRelease m
  | WaitRelease =>
      (* while(GPIO_PinInGet(gpioPortD, 2) == PB_PRESSED); *)
      let m := call (GPIO_PinInGet gpioPortD 2 (pb0 r)) m in
      if pb0 r =? PB_PRESSED then m else main_pipeline m
  | WaitHF osc powerdownRam =>
      let (m, again) := disableHFClocks_cond r m in
      if again then m
      else goto (WaitLF osc powerdownRam) (disableLFClocks_writes m)
  | WaitLF osc powerdownRam =>
      let (m, again) := disableLFClocks_cond r m in
      if again then m else em_EM2_RTCC_rest osc powerdownRam m
  | Sleeping => m     (* the CPU is stopped *)
  | Halt => m         (* while(1); *)
  end.

(** One step of the system.  A store at an index outside the array is not
    represented ([<[k:=_]>] then leaves the list as it is); the stored word is
    32 bits wide.  The interrupt ends the sleep: [EMU_EnterEM2] and
    [em_EM2_RTCC] return and [main] reaches its last line. *)
Definition step (i : input) (m : machine) : machine :=
  match i with
  | Run r => main_step r m
  | LdmaStore k sample =>
      if transfer_started m
      then set_singleBuffer (<[k := sample mod 2 ^ 32]> (singleBuffer m)) m
      else m
  | LdmaDone =>
      if transfer_started m then
        let m := LDMA_IRQHandler m in
        match ctl m with
        | Sleeping => goto Halt m
        | _ => m
        end
      else m
  end.

Definition run (ins : list input) (m : machine) : machine :=
  fold_left (fun m i => step i m) ins m.

End Program.

(** ** Executions *)

(** Mask value used for both registers when running the examples; the
    theorems below hold for any masks. *)
Definition ENS_MASK_example : Z := 65536.

Definition reachable (hfrco_mask hfxo_mask : Z) (m : machine) : Prop :=
  exists ins, m = run hfrco_mask hfxo_mask ins reset_state.

(** Readings for the examples: the button level, all oscillators stopped. *)
Definition button (level : Z) : readings :=
  {| pb0 := level; hfrco0_status := 0; hfxo0_status := 0;
     lfrco_status := 0; lfxo_status := 0 |}.

(** LFRCO stopped, LFXO still reporting a non-zero status. *)
Definition lfxo_running : readings :=
  {| pb0 := 1; hfrco0_status := 0; hfxo0_status := 0;
     lfrco_status := 0; lfxo_status := 1 |}.

(** LFRCO still reporting a non-zero status, LFXO stopped. *)
Definition lfrco_running : readings :=
  {| pb0 := 1; hfrco0_status := 0; hfxo0_status := 0;
     lfrco_status := 1; lfxo_status := 0 |}.

(** Button up, pressed, released; then the two oscillator loops. *)
Definition to_WaitLF : list input :=
  [Run (button 1); Run (button 1); Run (button 0); Run (button 1);
   Run (button 1)].
Definition to_sleep : list input := to_WaitLF ++ [Run (button 1)].
Definition to_halt : list input := to_sleep ++ [LdmaDone].



(** The three calls of the interrupt handler. *)
Definition handler_events : list event :=
  [LDMA_IntClear LDMA_IF_DONE0;
   IADC_command IADC0 iadcCmdStopSingle;
   GPIO_PinOutSet gpioPortB 1].

(** ** Observations on traces *)

(** The values returned by the polls of push button PB0 (port D, pin 2). *)
Definition pb0_read (e : event) : option Z :=
  match e with
  | GPIO_PinInGet gpioPortD pin v => if pin =? 2 then Some v else None
  | _ => None
  end.
Definition pb0_reads (tr : list event) : list Z := omap pb0_read tr.

(** A sequence of button polls that ends the startup wait: not pressed for a
    while, pressed (0) at least once, then released. *)
Definition press_and_release (reads : list Z) : Prop :=
  exists up down v,
    reads = up ++ 0 :: down ++ [v] /\
    Forall (fun x => x <> 0) up /\ Forall (fun x => x = 0) down /\ v <> 0.

(** [main] is past its startup wait. *)
Definition past_button_wait (c : control) : bool :=
  match c with
  | Reset | WaitPress | WaitRelease => false
  | _ => true
  end.

(** Two inputs that differ at most in the level of the button. *)
Inductive same_but_pb0 : input -> input -> Prop :=
  | same_Run r r' :
      hfrco0_status r = hfrco0_status r' ->
      hfxo0_status r = hfxo0_status r' ->
      lfrco_status r = lfrco_status r' ->
      lfxo_status r = lfxo_status r' ->
      same_but_pb0 (Run r) (Run r')
  | same_LdmaStore i v : same_but_pb0 (LdmaStore i v) (LdmaStore i v)
  | same_LdmaDone : same_but_pb0 LdmaDone LdmaDone.

(** The events a straight-line stretch of the program appends to the trace. *)
Definition events_of (f : machine -> machine) : list event :=
  trace (f reset_state).

(** The moves of the system seen from outside: trace so far, control point
    before, events appended, control point after.  [step_transition] below
    shows that every step is one of these moves. *)
Inductive transition (tr : list event) :
    control -> list event -> control -> Prop :=
  | t_idle c :
      transition tr c [] c
  | t_irq c :
      c <> Sleeping -> existsb is_LDMA_StartTransfer tr = true ->
      transition tr c handler_events c
  | t_wake :
      existsb is_LDMA_StartTransfer tr = true ->
      transition tr Sleeping handler_events Halt
  | t_begin :
      transition tr Reset (events_of main_begin) WaitPress
  | t_not_pressed v :
      v <> 0 ->
      transition tr WaitPress [GPIO_PinInGet gpioPortD 2 v] WaitPress
  | t_pressed :
      transition tr WaitPress [GPIO_PinInGet gpioPortD 2 0] WaitRelease
  | t_still_pressed :
      transition tr WaitRelease [GPIO_PinInGet gpioPortD 2 0] WaitRelease
  | t_released v :
      v <> 0 ->
      transition tr WaitRelease
        (GPIO_PinInGet gpioPortD 2 v :: events_of main_pipeline)
        (WaitHF cmuSelect_LFRCO false)
  | t_hf_wait1 osc pd v :
      transition tr (WaitHF osc pd) [STATUS_read HFRCO0 v] (WaitHF osc pd)
  | t_hf_wait2 osc pd v w :
      transition tr (WaitHF osc pd)
        [STATUS_read HFRCO0 v; STATUS_read HFXO0 w] (WaitHF osc pd)
  | t_hf_done osc pd v w :
      transition tr (WaitHF osc pd)
        (STATUS_read HFRCO0 v :: STATUS_read HFXO0 w
           :: events_of disableLFClocks_writes)
        (WaitLF osc pd)
  | t_lf_wait osc pd v w :
      v <> 0 -> w <> 0 ->
      transition tr (WaitLF osc pd)
        [STATUS_read LFRCO v; STATUS_read LFXO w] (WaitLF osc pd)
  | t_lf_done1 osc pd :
      transition tr (WaitLF osc pd)
        (STATUS_read LFRCO 0 :: events_of (em_EM2_RTCC_rest osc pd)) Sleeping
  | t_lf_done2 osc pd v :
      v <> 0 ->
      transition tr (WaitLF osc pd)
        (STATUS_read LFRCO v :: STATUS_read LFXO 0
           :: events_of (em_EM2_RTCC_rest osc pd))
        Sleeping.

(** Finitely many moves in a row, from control point [c0] with trace [tr0]. *)
Inductive transitions (tr0 : list event) (c0 : control) :
    list event -> control -> Prop :=
  | ts_refl : transitions tr0 c0 [] c0
  | ts_step new1 c new c' :
      transitions tr0 c0 new1 c -> transition (tr0 ++ new1) c new c' ->
      transitions tr0 c0 (new1 ++ new) c'.




Definition is_EnableTimer (e : event) : bool :=
  match e with IADC_command _ iadcCmdEnableTimer => true | _ => false end.

(** Every event satisfying [Q] comes after some event satisfying [P]
    ([seen]: one has already been seen). *)
Fixpoint preceded (P Q : event -> bool) (seen : bool) (tr : list event) : bool :=
  match tr with
  | [] => true
  | e :: tr' =>
      (if Q e then seen else true) && preceded P Q (seen || P e) tr'
  end.

(** Arguments of the calls that are the same in every execution. *)
Definition event_ok (e : event) : Prop :=
  match e with
  | IADC_init iadc init allConfigs =>
      iadc = IADC0 /\
      init =
        {| IADC_Init_of := IADC_INIT_DEFAULT_;
           warmup := Some iadcWarmupNormal;
           srcClkPrescale :=
             Some (IADC_calcSrcClkPrescale IADC0 CLK_SRC_ADC_FREQ 0);
           timerCycles := Some TIMER_CYCLES |} /\
      allConfigs =
        {| IADC_AllConfigs_of := IADC_ALLCONFIGS_DEFAULT_;
           configs0_reference := Some iadcCfgReferenceVddx;
           configs0_adcClkPrescale :=
             Some (IADC_calcAdcClkPrescale IADC0 CLK_ADC_FREQ 0
                     iadcCfgModeNormal
                     (Some (IADC_calcSrcClkPrescale IADC0 CLK_SRC_ADC_FREQ 0)))
        |}
  | IADC_initSingle iadc init input =>
      iadc = IADC0 /\
      init =
        {| IADC_InitSingle_of := IADC_INITSINGLE_DEFAULT_;
           triggerSelect := Some iadcTriggerSelTimer;
           dataValidLevel := Some _IADC_SINGLEFIFOCFG_DVL_VALID1;
           start := Some true;
           fifoDmaWakeup := Some true |} /\
      input =
        {| IADC_SingleInput_of := IADC_SINGLEINPUT_DEFAULT_;
           posInput := Some iadcPosInputPortCPin4;
           negInput := Some iadcNegInputGnd |}
  | LDMA_StartTransfer ch transfer desc =>
      ch = 0 /\
      transfer =
        LDMA_TRANSFER_CFG_PERIPHERAL ldmaPeripheralSignal_IADC0_IADC_SINGLE /\
      desc =
        {| LDMA_Descriptor_of :=
             LDMA_DESCRIPTOR_LINKREL_P2M_BYTE_
               addr_IADC0_SINGLEFIFODATA addr_singleBuffer NUM_SAMPLES 1;
           xfer_size := Some ldmaCtrlSizeWord;
           xfer_decLoopCnt := Some 1;
           xfer_xferCnt := Some NUM_SAMPLES;
           xfer_doneIfs := Some 1;
           xfer_ignoreSrec := Some 0 |}
  | CMU_ClockSelectSet cmuClock_RTCCCLK osc => osc = cmuSelect_LFRCO
  | EMU_RamPowerDown _ _ => False
  | _ => True
  end.

(** Arguments of the call of [em_EM2_RTCC] that is in progress, if any. *)
Definition ctl_ok (c : control) : Prop :=
  match c with
  | WaitHF osc pd | WaitLF osc pd => osc = cmuSelect_LFRCO /\ pd = false
  | _ => True
  end.

Definition is_EnterEM2 (e : event) : bool :=
  match e with EMU_EnterEM2 _ => true | _ => false end.

Definition is_StopSingle (e : event) : bool :=
  match e with IADC_command _ iadcCmdStopSingle => true | _ => false end.



(** Number of events of a kind in a trace. *)
Fixpoint count (P : event -> bool) (tr : list event) : nat :=
  match tr with
  | [] => 0
  | e :: tr' => ((if P e then 1 else 0) + count P tr')%nat
  end.

(** ** Invariants of the executions from reset

    Each relates the control point of [main] to the trace so far. *)

(** What the trace looks like at each control point, as far as the button
    is concerned. *)
Definition button_inv (c : control) (tr : list event) : Prop :=
  match c with
  | Reset => pb0_reads tr = []
  | WaitPress => Forall (fun x => x <> 0) (pb0_reads tr)
  | WaitRelease =>
      exists up down,
        pb0_reads tr = up ++ 0 :: down /\
        Forall (fun x => x <> 0) up /\ Forall (fun x => x = 0) down
  | _ =>
      exists pre post v,
        tr =
          pre ++ GPIO_PinInGet gpioPortD 2 v
              :: GPIO_PinModeSet gpioPortD 2 gpioModeDisabled 1 :: post /\
        press_and_release (pb0_reads pre ++ [v]) /\
        pb0_reads post = []
  end.


(** The arguments of the calls, in the trace and in progress. *)
Definition args_inv (c : control) (tr : list event) : Prop :=
  ctl_ok c /\ Forall event_ok tr.

(** Past the startup wait the transfer has been started; in the last loop
    the handler has run. *)
Definition progress_inv (c : control) (tr : list event) : Prop :=
  (past_button_wait c = true -> existsb is_LDMA_StartTransfer tr = true) /\
  (c = Halt -> incl handler_events tr).



(** Where a call [em_EM2_RTCC osc pd] can be, and what it has appended to
    the trace since its first loop. *)
Definition em2_inv (osc : CMU_Select_TypeDef) (pd : bool)
    (c : control) (tr : list event) : Prop :=
  match c with
  | WaitHF o p => o = osc /\ p = pd
  | WaitLF o p => o = osc /\ p = pd /\ In (EN_CLR_write RTCC 1) tr
  | Sleeping =>
      exists mid,
        tr = mid ++ events_of (em_EM2_RTCC_rest osc pd) /\
        In (EN_CLR_write RTCC 1) mid
  | Halt => True
  | _ => False
  end.

(** ** Further observations *)

(** Position of a control point along [main]. *)
Definition rank (c : control) : nat :=
  match c with
  | Reset => 0
  | WaitPress => 1
  | WaitRelease => 2
  | WaitHF _ _ => 3
  | WaitLF _ _ => 4
  | Sleeping => 5
  | Halt => 6
  end.

(** The calls of [main] up to the end of its second loop (lines 372-380). *)
Definition is_startup_event (e : event) : bool :=
  match e with
  | CHIP_Init => true
  | GPIO_PinModeSet gpioPortD pin gpioModeInputPullFilter out =>
      (pin =? 2) && (out =? 1)
  | GPIO_PinInGet gpioPortD pin _ => pin =? 2
  | _ => false
  end.

(** The value [initLDMA] leaves in [descriptor] when called as in [main]
    (line 399), and the value of the global before that. *)
Definition singleBuffer_descriptor : LDMA_Descriptor_t :=
  {| LDMA_Descriptor_of :=
       LDMA_DESCRIPTOR_LINKREL_P2M_BYTE_
         addr_IADC0_SINGLEFIFODATA addr_singleBuffer NUM_SAMPLES 1;
     xfer_size := Some ldmaCtrlSizeWord;
     xfer_decLoopCnt := Some 1;
     xfer_xferCnt := Some NUM_SAMPLES;
     xfer_doneIfs := Some 1;
     xfer_ignoreSrec := Some 0 |}.
Definition zero_descriptor : LDMA_Descriptor_t := descriptor reset_state.

(** Recognisers of single calls, for statements about their order. *)
Definition is_PB1_output (e : event) : bool :=
  match e with
  | GPIO_PinModeSet gpioPortB pin gpioModePushPull _ => pin =? 1
  | _ => false
  end.
Definition is_LED1_set (e : event) : bool :=
  match e with GPIO_PinOutSet gpioPortB pin => pin =? 1 | _ => false end.
Definition is_IADC_reset (e : event) : bool :=
  match e with IADC_reset _ => true | _ => false end.
Definition is_IADC_clock_select (e : event) : bool :=
  match e with CMU_ClockSelectSet cmuClock_IADCCLK _ => true | _ => false end.
Definition is_IADC_init (e : event) : bool :=
  match e with IADC_init _ _ _ => true | _ => false end.
Definition is_IADC_initSingle (e : event) : bool :=
  match e with IADC_initSingle _ _ _ => true | _ => false end.
Definition is_LDMA_Init (e : event) : bool :=
  match e with LDMA_Init _ => true | _ => false end.
Definition is_LDMA_IntClear (e : event) : bool :=
  match e with LDMA_IntClear _ => true | _ => false end.
Definition is_SYSCLK_FSRCO (e : event) : bool :=
  match e with
  | CMU_ClockSelectSet cmuClock_SYSCLK cmuSelect_FSRCO => true
  | _ => false
  end.
Definition is_STATUS_read (o : oscillator) (e : event) : bool :=
  match e, o with
  | STATUS_read HFRCO0 _, HFRCO0 | STATUS_read HFXO0 _, HFXO0
  | STATUS_read LFRCO _, LFRCO | STATUS_read LFXO _, LFXO => true
  | _, _ => false
  end.
Definition is_RTCC_Init (e : event) : bool :=
  match e with RTCC_Init _ => true | _ => false end.
Definition is_RamPowerDown (e : event) : bool :=
  match e with EMU_RamPowerDown _ _ => true | _ => false end.

(** A read of an HF oscillator's STATUS with the bits of [mask] clear. *)
Definition is_HF_clear_read (o : oscillator) (mask : Z) (e : event) : bool :=
  match e with
  | STATUS_read o' v => is_STATUS_read o (STATUS_read o' v) && (Z.land v mask =? 0)
  | _ => false
  end.

(** A read of an LF oscillator's STATUS as 0. *)
Definition is_LF_stopped_read (e : event) : bool :=
  match e with
  | STATUS_read LFRCO v | STATUS_read LFXO v => v =? 0
  | _ => false
  end.

(** A write to the [EN_CLR] register of a low-frequency peripheral (lines
    298-302). *)
Definition is_LF_disable (e : event) : bool :=
  match e with
  | EN_CLR_write RTCC _ | EN_CLR_write WDOG0 _ | EN_CLR_write WDOG1 _
  | EN_CLR_write LETIMER0 _ | EN_CLR_write BURTC _ => true
  | _ => false
  end.

(** ** Theorems *)

(** Unfolding one step, one step of [main], one input of a run. *)
Ltac simpl_step := cbn [step].
Ltac unfold_main_step := unfold main_step.
Ltac simpl_run := cbn [run fold_left].

(** Projections of a state built by [call], [goto] and the like. *)
Ltac simpl_machine :=
  cbn [ctl trace descriptor singleBuffer
       call goto set_descriptor set_singleBuffer].

Section Facts.

Variables hfrco_mask hfxo_mask : Z.

Local Abbreviation step := (step hfrco_mask hfxo_mask).
Local Abbreviation run := (run hfrco_mask hfxo_mask).
Local Abbreviation main_step := (main_step hfrco_mask hfxo_mask).
Local Abbreviation reachable := (reachable hfrco_mask hfxo_mask).

Lemma run_app ins1 ins2 m : run (ins1 ++ ins2) m = run ins2 (run ins1 m).
Proof. apply fold_left_app. Qed.

Lemma run_snoc ins i m : run (ins ++ [i]) m = step i (run ins m).
Proof. apply run_app. Qed.

(** *** The interrupt handler *)

Lemma LDMA_IRQHandler_unfold (m : machine) :
  LDMA_IRQHandler m =
    {| ctl := ctl m;
       trace := trace m ++ handler_events;
       descriptor := descriptor m;
       singleBuffer := singleBuffer m |}.
Proof.
  unfold LDMA_IRQHandler, call. cbn [ctl trace descriptor singleBuffer].
  rewrite <- !app_assoc. reflexivity.
Qed.

(** C3.  [LDMA_IRQHandler] makes exactly three calls, in this order: it
    clears the LDMA DONE0 flag, sends the stop-single command to the IADC and
    sets pin 1 of GPIO port B.  It leaves the control point of [main] and
    the globals [descriptor] and [singleBuffer] as they were.  So when the
    interrupt is taken, the trace grows by these three calls, the globals
    are unchanged, and [main] is where it was, or in its final loop if the
    CPU was asleep. *)
Theorem LDMA_IRQHandler_effects :
  (forall m,
      LDMA_IRQHandler m =
        {| ctl := ctl m;
           trace := trace m ++ [LDMA_IntClear LDMA_IF_DONE0;
                                IADC_command IADC0 iadcCmdStopSingle;
                                GPIO_PinOutSet gpioPortB 1];
           descriptor := descriptor m;
           singleBuffer := singleBuffer m |}) /\
  (forall m,
      transfer_started m = true ->
      trace (step LdmaDone m) =
        trace m ++ [LDMA_IntClear LDMA_IF_DONE0;
                    IADC_command IADC0 iadcCmdStopSingle;
                    GPIO_PinOutSet gpioPortB 1] /\
      descriptor (step LdmaDone m) = descriptor m /\
      singleBuffer (step LdmaDone m) = singleBuffer m /\
      ctl (step LdmaDone m) =
        match ctl m with Sleeping => Halt | c => c end).
Proof.
  split.
  - exact LDMA_IRQHandler_unfold.
  - intros m Hs. simpl_step. rewrite Hs, LDMA_IRQHandler_unfold. cbn [ctl].
    destruct (ctl m); repeat split.
Qed.

(** *** The loop of [disableLFClocks] *)

Lemma disableLFClocks_cond_again r m :
  snd (disableLFClocks_cond r m) = true <->
  lfrco_status r <> 0 /\ lfxo_status r <> 0.
Proof.
  unfold disableLFClocks_cond.
  destruct (Z.eqb_spec (lfrco_status r) 0) as [E1|E1]; cbn [negb snd].
  - split; [discriminate | intros [H _]; contradiction].
  - destruct (Z.eqb_spec (lfxo_status r) 0) as [E2|E2]; cbn [negb].
    + split; [discriminate | intros [_ H]; contradiction].
    + split; auto.
Qed.

Lemma main_step_WaitLF osc pd r m :
  ctl m = WaitLF osc pd ->
  main_step r m =
    if snd (disableLFClocks_cond r m) then fst (disableLFClocks_cond r m)
    else em_EM2_RTCC_rest osc pd (fst (disableLFClocks_cond r m)).
Proof.
  intros E. unfold main_step. rewrite E.
  destruct (disableLFClocks_cond r m) as [m' again]. reflexivity.
Qed.

Lemma disableLFClocks_cond_ctl r m : ctl (fst (disableLFClocks_cond r m)) = ctl m.
Proof.
  unfold disableLFClocks_cond.
  destruct (negb (lfrco_status r =? 0)); reflexivity.
Qed.

Lemma em_EM2_RTCC_rest_ctl osc pd m : ctl (em_EM2_RTCC_rest osc pd m) = Sleeping.
Proof. reflexivity. Qed.

(** C9.  The loop of [disableLFClocks] is left (and the function returns)
    exactly when the LFRCO status or the LFXO status is read as 0: one of the
    two is 0 at that moment, and the other need not be.  There are executions
    from reset in which the loop is left while LFXO still reports a non-zero
    status, and others in which LFRCO does. *)
Theorem disableLFClocks_returns_when_either_stopped :
  (forall osc pd r m,
      ctl m = WaitLF osc pd ->
      (ctl (step (Run r) m) <> WaitLF osc pd <->
       lfrco_status r = 0 \/ lfxo_status r = 0)) /\
  (exists m osc pd r,
      reachable m /\ ctl m = WaitLF osc pd /\
      ctl (step (Run r) m) = Sleeping /\
      lfrco_status r = 0 /\ lfxo_status r <> 0) /\
  (exists m osc pd r,
      reachable m /\ ctl m = WaitLF osc pd /\
      ctl (step (Run r) m) = Sleeping /\
      lfrco_status r <> 0 /\ lfxo_status r = 0).
Proof.
  split; [|split].
  - intros osc pd r m E. simpl_step.
    rewrite (main_step_WaitLF osc pd r m E).
    pose proof (disableLFClocks_cond_again r m) as Hc.
    destruct (snd (disableLFClocks_cond r m)).
    + rewrite disableLFClocks_cond_ctl, E. split.
      * intros H. contradiction.
      * intros H. destruct Hc as [Hc _]. destruct (Hc eq_refl). lia.
    + rewrite em_EM2_RTCC_rest_ctl. split.
      * intros _.
        destruct (Z.eq_dec (lfrco_status r) 0) as [|N1]; [auto|].
        destruct (Z.eq_dec (lfxo_status r) 0) as [|N2]; [auto|].
        destruct Hc as [_ Hc]. discriminate (Hc (conj N1 N2)).
      * discriminate.
  - exists (run to_WaitLF reset_state), cmuSelect_LFRCO, false, lfxo_running.
    split; [eexists; reflexivity|]. repeat split; try reflexivity.
    discriminate.
  - exists (run to_WaitLF reset_state), cmuSelect_LFRCO, false, lfrco_running.
    split; [eexists; reflexivity|]. repeat split; try reflexivity.
    discriminate.
Qed.

(** *** Every step is a move of the transition system *)

Lemma main_begin_trace m : trace (main_begin m) = trace m ++ events_of main_begin.
Proof.
  unfold main_begin. simpl_machine. rewrite <- !app_assoc. reflexivity.
Qed.

Lemma main_pipeline_events m :
  trace (main_pipeline m) = trace m ++ events_of main_pipeline.
Proof.
  unfold main_pipeline, em_EM2_RTCC, disableHFClocks_writes, initLDMA,
    initIADC.
  simpl_machine. rewrite <- !app_assoc. reflexivity.
Qed.

Lemma disableLFClocks_writes_trace m :
  trace (disableLFClocks_writes m) = trace m ++ events_of disableLFClocks_writes.
Proof.
  unfold disableLFClocks_writes. simpl_machine. rewrite <- !app_assoc.
  reflexivity.
Qed.

Lemma em_EM2_RTCC_rest_trace osc pd m :
  trace (em_EM2_RTCC_rest osc pd m) =
  trace m ++ events_of (em_EM2_RTCC_rest osc pd).
Proof.
  unfold em_EM2_RTCC_rest.
  destruct pd; simpl_machine; rewrite <- !app_assoc; reflexivity.
Qed.

Lemma step_transition i m :
  exists new,
    trace (step i m) = trace m ++ new /\
    transition (trace m) (ctl m) new (ctl (step i m)).
Proof.
  destruct i as [r | k v | ]; simpl_step.
  - unfold_main_step. destruct (ctl m) eqn:E.
    + eexists. split; [apply main_begin_trace | constructor].
    + destruct (Z.eqb_spec (pb0 r) PB_PRESSED) as [Hz|Hz]; cbn [negb].
      * eexists. split; [reflexivity|]. cbn [ctl goto]. rewrite Hz.
        constructor.
      * eexists. split; [reflexivity|]. cbn [ctl call]. rewrite E.
        constructor. exact Hz.
    + destruct (Z.eqb_spec (pb0 r) PB_PRESSED) as [Hz|Hz].
      * eexists. split; [reflexivity|]. cbn [ctl call]. rewrite E, Hz.
        constructor.
      * eexists. split.
        -- rewrite main_pipeline_events. cbn [trace call].
           rewrite <- app_assoc. reflexivity.
        -- apply t_released. exact Hz.
    + unfold disableHFClocks_cond.
      destruct (negb (Z.land (hfrco0_status r) hfrco_mask =? 0));
        [|destruct (negb (Z.land (hfxo0_status r) hfxo_mask =? 0))].
      * eexists. split; [reflexivity|]. cbn [ctl call]. rewrite E.
        constructor.
      * eexists. split; [cbn [trace call]; rewrite <- app_assoc; reflexivity|].
        cbn [ctl call]. rewrite E. constructor.
      * eexists. split.
        -- cbn [trace goto]. rewrite disableLFClocks_writes_trace.
           cbn [trace call]. rewrite <- !app_assoc. reflexivity.
        -- constructor.
    + unfold disableLFClocks_cond.
      destruct (Z.eqb_spec (lfrco_status r) 0) as [H1|H1]; cbn [negb];
        [|destruct (Z.eqb_spec (lfxo_status r) 0) as [H2|H2]; cbn [negb]].
      * eexists. split.
        -- rewrite em_EM2_RTCC_rest_trace. cbn [trace call].
           rewrite <- !app_assoc. reflexivity.
        -- rewrite H1. constructor.
      * eexists. split.
        -- rewrite em_EM2_RTCC_rest_trace. cbn [trace call].
           rewrite <- !app_assoc. reflexivity.
        -- rewrite H2. cbn [app]. apply t_lf_done2. exact H1.
      * eexists. split; [cbn [trace call]; rewrite <- app_assoc; reflexivity|].
        cbn [ctl call]. rewrite E. apply t_lf_wait; assumption.
    + exists []. rewrite app_nil_r, E. split; [reflexivity | constructor].
    + exists []. rewrite app_nil_r, E. split; [reflexivity | constructor].
  - exists []. rewrite app_nil_r.
    destruct (transfer_started m); (split; [reflexivity | constructor]).
  - destruct (transfer_started m) eqn:Hs.
    + exists handler_events. rewrite LDMA_IRQHandler_unfold. cbn [ctl].
      destruct (ctl m) eqn:E; cbn [trace goto];
        (split; [reflexivity|]); cbn [ctl goto]; rewrite ?E;
        try (apply t_irq; [discriminate | exact Hs]); apply t_wake; exact Hs.
    + exists []. rewrite app_nil_r. split; [reflexivity | constructor].
Qed.

Lemma run_transitions ins m :
  exists new,
    trace (run ins m) = trace m ++ new /\
    transitions (trace m) (ctl m) new (ctl (run ins m)).
Proof.
  induction ins as [|i ins IH] using rev_ind.
  - exists []. rewrite app_nil_r. split; [reflexivity | constructor].
  - destruct IH as (tr & Et & Ht). rewrite run_snoc.
    destruct (step_transition i (run ins m)) as (new & En & Hn).
    exists (tr ++ new). split.
    + rewrite En, Et, <- app_assoc. reflexivity.
    + econstructor; [eassumption|]. rewrite <- Et. exact Hn.
Qed.

(** Invariants of executions from reset, by induction on the moves. *)
Lemma invariant_from_reset (P : control -> list event -> Prop) :
  P Reset [] ->
  (forall c tr new c', P c tr -> transition tr c new c' -> P c' (tr ++ new)) ->
  forall ins, P (ctl (run ins reset_state)) (trace (run ins reset_state)).
Proof.
  intros H0 Hstep ins.
  destruct (run_transitions ins reset_state) as (new & -> & Ht).
  cbn [trace reset_state app ctl] in *.
  induction Ht as [|new1 c new c' _ IH Ht]; [exact H0|].
  exact (Hstep c new1 new c' IH Ht).
Qed.

(** *** The startup wait on push button PB0 *)

Lemma pb0_reads_app l1 l2 : pb0_reads (l1 ++ l2) = pb0_reads l1 ++ pb0_reads l2.
Proof. apply omap_app. Qed.

Lemma button_inv_past c tr :
  past_button_wait c = true ->
  button_inv c tr <->
  exists pre post v,
    tr =
      pre ++ GPIO_PinInGet gpioPortD 2 v
          :: GPIO_PinModeSet gpioPortD 2 gpioModeDisabled 1 :: post /\
    press_and_release (pb0_reads pre ++ [v]) /\
    pb0_reads post = [].
Proof. destruct c; intros H; try discriminate H; reflexivity. Qed.

(** Events that are not polls of the button keep the invariant, as long as
    [main] stays where it is or is past the wait anyway. *)
Lemma button_inv_extend c c' tr new :
  pb0_reads new = [] ->
  c' = c \/ (past_button_wait c = true /\ past_button_wait c' = true) ->
  button_inv c tr -> button_inv c' (tr ++ new).
Proof.
  intros Hn Hc Hi.
  destruct (past_button_wait c) eqn:Hp.
  - assert (past_button_wait c' = true) as Hp'.
    { destruct Hc as [-> | [_ H]]; assumption. }
    apply (button_inv_past c tr Hp) in Hi.
    apply (button_inv_past c' _ Hp').
    destruct Hi as (pre & post & v & -> & Hpr & Hpost).
    exists pre, (post ++ new), v. split; [|split].
    + rewrite <- app_assoc. reflexivity.
    + exact Hpr.
    + rewrite pb0_reads_app, Hpost, Hn. reflexivity.
  - destruct Hc as [-> | [H _]]; [|discriminate H].
    destruct c; try discriminate Hp; unfold button_inv in *;
      rewrite pb0_reads_app, Hn, app_nil_r; exact Hi.
Qed.

(** The first call after the second loop disables the pin; no later call of
    that stretch polls it. *)
Lemma main_pipeline_head :
  exists post,
    events_of main_pipeline =
      GPIO_PinModeSet gpioPortD 2 gpioModeDisabled 1 :: post /\
    pb0_reads post = [].
Proof.
  eexists. split; vm_compute; reflexivity.
Qed.

Lemma button_inv_reachable ins :
  button_inv (ctl (run ins reset_state)) (trace (run ins reset_state)).
Proof.
  apply invariant_from_reset; [reflexivity|].
  intros c tr new c' Hi Ht.
  destruct Ht as [c | c Hc Hgo | Hgo | | v Hv | | | v Hv | osc pd v | osc pd v w
                 | osc pd v w | osc pd v w Hv Hw | osc pd | osc pd v Hv].
  - rewrite app_nil_r. exact Hi.
  - apply (button_inv_extend c c); [reflexivity | left; reflexivity | exact Hi].
  - apply (button_inv_extend Sleeping Halt);
      [reflexivity | right; split; reflexivity | exact Hi].
  - cbn [button_inv] in *. rewrite pb0_reads_app, Hi. constructor.
  - cbn [button_inv] in *. rewrite pb0_reads_app.
    apply Forall_app. split; [exact Hi|]. repeat constructor. exact Hv.
  - cbn [button_inv] in *. rewrite pb0_reads_app.
    exists (pb0_reads tr), []. repeat split; [exact Hi | constructor].
  - cbn [button_inv] in *. destruct Hi as (up & down & Hr & Hup & Hdown).
    exists up, (down ++ [0]). rewrite pb0_reads_app, Hr, <- app_assoc.
    repeat split; [exact Hup|].
    apply Forall_app. split; [exact Hdown|]. repeat constructor.
  - cbn [button_inv] in *. destruct Hi as (up & down & Hr & Hup & Hdown).
    destruct main_pipeline_head as (post & -> & Hpost).
    exists tr, post, v. split; [|split].
    + reflexivity.
    + exists up, down, v. rewrite Hr, <- app_assoc.
      repeat split; assumption.
    + exact Hpost.
  - apply (button_inv_extend (WaitHF osc pd) (WaitHF osc pd));
      [reflexivity | left; reflexivity | exact Hi].
  - apply (button_inv_extend (WaitHF osc pd) (WaitHF osc pd));
      [reflexivity | left; reflexivity | exact Hi].
  - apply (button_inv_extend (WaitHF osc pd) (WaitLF osc pd));
      [reflexivity | right; split; reflexivity | exact Hi].
  - apply (button_inv_extend (WaitLF osc pd) (WaitLF osc pd));
      [reflexivity | left; reflexivity | exact Hi].
  - apply (button_inv_extend (WaitLF osc pd) Sleeping);
      [destruct pd; reflexivity | right; split; reflexivity | exact Hi].
  - apply (button_inv_extend (WaitLF osc pd) Sleeping);
      [destruct pd; reflexivity | right; split; reflexivity | exact Hi].
Qed.

Lemma past_button_wait_step i m :
  past_button_wait (ctl m) = true -> past_button_wait (ctl (step i m)) = true.
Proof.
  intros Hp. destruct i as [r | k v | ]; simpl_step.
  - unfold_main_step.
    destruct (ctl m) eqn:E; try discriminate Hp; try (rewrite E; exact Hp).
    + unfold disableHFClocks_cond.
      destruct (negb (Z.land (hfrco0_status r) hfrco_mask =? 0));
        [|destruct (negb (Z.land (hfxo0_status r) hfxo_mask =? 0))];
        cbn [ctl call goto]; rewrite ?E; reflexivity.
    + unfold disableLFClocks_cond.
      destruct (negb (lfrco_status r =? 0));
        [destruct (negb (lfxo_status r =? 0))|];
        cbn [ctl call goto em_EM2_RTCC_rest]; rewrite ?E; reflexivity.
  - destruct (transfer_started m); exact Hp.
  - destruct (transfer_started m); [|exact Hp].
    rewrite LDMA_IRQHandler_unfold. cbn [ctl].
    destruct (ctl m); try discriminate Hp; reflexivity.
Qed.

Lemma step_same_but_pb0 i i' m :
  past_button_wait (ctl m) = true -> same_but_pb0 i i' -> step i m = step i' m.
Proof.
  intros Hp Hs. destruct Hs as [r r' H1 H2 H3 H4 | |]; [|reflexivity..].
  simpl_step. unfold_main_step.
  destruct (ctl m); try discriminate Hp; try reflexivity.
  - unfold disableHFClocks_cond. rewrite H1, H2. reflexivity.
  - unfold disableLFClocks_cond. rewrite H3, H4. reflexivity.
Qed.

Lemma run_same_but_pb0 ins ins' :
  Forall2 same_but_pb0 ins ins' ->
  forall m, past_button_wait (ctl m) = true -> run ins m = run ins' m.
Proof.
  induction 1 as [|i i' ins ins' Hi _ IH]; intros m Hp; [reflexivity|].
  simpl_run.
  rewrite (step_same_but_pb0 i i' m Hp Hi).
  apply IH. apply past_button_wait_step. exact Hp.
Qed.

(** C8.  In every execution from reset, when [main] is past its startup
    wait, the polls of PB0 recorded in the trace are: some non-zero readings
    (not pressed), a reading 0 (pressed), further readings 0, and one final
    non-zero reading (released).  The call that follows that last poll
    disables the PB0 pin, the pin is never polled again, and from then on
    the execution is the same whatever the level of the button. *)
Theorem startup_wait_is_press_then_release (ins : list input) :
  past_button_wait (ctl (run ins reset_state)) = true ->
  (exists pre post v,
      trace (run ins reset_state) =
        pre ++ GPIO_PinInGet gpioPortD 2 v
            :: GPIO_PinModeSet gpioPortD 2 gpioModeDisabled 1 :: post /\
      press_and_release (pb0_reads pre ++ [v]) /\
      pb0_reads post = []) /\
  (forall later later',
      Forall2 same_but_pb0 later later' ->
      run later (run ins reset_state) = run later' (run ins reset_state)).
Proof.
  intros Hp. split.
  - apply (button_inv_past _ _ Hp). apply button_inv_reachable.
  - intros later later' Hs. apply run_same_but_pb0; assumption.
Qed.

(** *** Invariants of the executions from reset *)






Lemma args_inv_reachable ins :
  args_inv (ctl (run ins reset_state)) (trace (run ins reset_state)).
Proof.
  apply invariant_from_reset; [split; [exact I | constructor]|].
  intros c tr new c' [Hc Hf] Ht. unfold args_inv.
  rewrite Forall_app.
  destruct Ht as [c | c Hn Hgo | Hgo | | v Hv | | | v Hv | osc pd v | osc pd v w
                 | osc pd v w | osc pd v w Hv Hw | osc pd | osc pd v Hv];
    cbn [ctl_ok] in *.
  - repeat split; trivial.
  - repeat split; trivial. repeat constructor.
  - repeat split; trivial. repeat constructor.
  - repeat split; trivial. unfold events_of. cbv. repeat constructor.
  - repeat split; trivial. repeat constructor.
  - repeat split; trivial. repeat constructor.
  - repeat split; trivial. repeat constructor.
  - repeat split; trivial. unfold events_of. cbv. repeat constructor.
  - repeat split; trivial; try apply Hc. repeat constructor.
  - repeat split; trivial; try apply Hc. repeat constructor.
  - repeat split; trivial; try apply Hc. unfold events_of. cbv.
    repeat constructor.
  - repeat split; trivial; try apply Hc. repeat constructor.
  - destruct Hc as [-> ->]. repeat split; trivial.
    unfold events_of. cbv. repeat constructor.
  - destruct Hc as [-> ->]. repeat split; trivial.
    unfold events_of. cbv. repeat constructor.
Qed.

Lemma progress_inv_reachable ins :
  progress_inv (ctl (run ins reset_state)) (trace (run ins reset_state)).
Proof.
  apply invariant_from_reset; [split; discriminate|].
  intros c tr new c' [Hs Hh] Ht. unfold progress_inv.
  rewrite existsb_app.
  destruct Ht as [c | c Hn Hgo | Hgo | | v Hv | | | v Hv | osc pd v | osc pd v w
                 | osc pd v w | osc pd v w Hv Hw | osc pd | osc pd v Hv];
    cbn [past_button_wait] in *.
  - rewrite app_nil_r, orb_false_r. split; assumption.
  - split.
    + intros Hp. rewrite (Hs Hp). reflexivity.
    + intros Hc. apply incl_appl, Hh, Hc.
  - split.
    + intros _. rewrite (Hs eq_refl). reflexivity.
    + intros _. apply incl_appr, incl_refl.
  - split; discriminate.
  - split; discriminate.
  - split; discriminate.
  - split; discriminate.
  - split; [|discriminate]. intros _. apply orb_true_r.
  - split; [|discriminate]. intros _. rewrite (Hs eq_refl). reflexivity.
  - split; [|discriminate]. intros _. rewrite (Hs eq_refl). reflexivity.
  - split; [|discriminate]. intros _. rewrite (Hs eq_refl). reflexivity.
  - split; [|discriminate]. intros _. rewrite (Hs eq_refl). reflexivity.
  - split; [|discriminate]. intros _. rewrite (Hs eq_refl). reflexivity.
  - split; [|discriminate]. intros _. rewrite (Hs eq_refl). reflexivity.
Qed.

(** *** The final loop *)



Lemma wake_up m :
  ctl m = Sleeping -> transfer_started m = true ->
  ctl (step LdmaDone m) = Halt /\
  trace (step LdmaDone m) = trace m ++ handler_events.
Proof.
  intros E Hs. simpl_step. rewrite Hs, LDMA_IRQHandler_unfold.
  cbn [ctl]. rewrite E. split; reflexivity.
Qed.


(** *** The order of the stages *)


(** *** The transfer is started before the timer is enabled *)

Lemma preceded_app P Q seen l1 l2 :
  preceded P Q seen (l1 ++ l2) =
  preceded P Q seen l1 && preceded P Q (seen || existsb P l1) l2.
Proof.
  revert seen. induction l1 as [|e l1 IH]; intros seen; cbn [app preceded existsb].
  - rewrite orb_false_r. reflexivity.
  - rewrite IH, orb_assoc, andb_assoc. reflexivity.
Qed.

Lemma preceded_sound P Q seen tr :
  preceded P Q seen tr = true ->
  forall before e after,
    tr = before ++ e :: after -> Q e = true ->
    seen || existsb P before = true.
Proof.
  intros Hp before. revert seen tr Hp.
  induction before as [|x before IH]; intros seen tr Hp e after -> Hq;
    cbn [app preceded existsb] in *; apply andb_true_iff in Hp as [H1 H2].
  - rewrite Hq in H1. rewrite H1. reflexivity.
  - rewrite orb_assoc. eapply IH; [exact H2 | reflexivity | exact Hq].
Qed.

Lemma preceded_reachable ins :
  preceded is_LDMA_StartTransfer is_EnableTimer false
    (trace (run ins reset_state)) = true.
Proof.
  apply (invariant_from_reset
           (fun _ tr => preceded is_LDMA_StartTransfer is_EnableTimer false tr
                        = true)); [reflexivity|].
  intros c tr new c' Hi Ht. rewrite preceded_app, Hi. cbn [andb orb].
  generalize (existsb is_LDMA_StartTransfer tr). intros seen.
  destruct Ht as [c | c Hn Hgo | Hgo | | v Hv | | | v Hv | osc pd v | osc pd v w
                 | osc pd v w | osc pd v w Hv Hw | osc pd | osc pd v Hv];
    try destruct pd; destruct seen; reflexivity.
Qed.

(** C10.  In every execution from reset, wherever the trace holds the
    command that enables the IADC timer, a call of [LDMA_StartTransfer]
    stands before it: whenever the timer has been enabled the transfer has
    been started. *)
Theorem LDMA_started_before_timer_enabled (ins : list input) :
  let m := run ins reset_state in
  (forall before after,
      trace m = before ++ IADC_command IADC0 iadcCmdEnableTimer :: after ->
      exists ch cfg desc, In (LDMA_StartTransfer ch cfg desc) before) /\
  (In (IADC_command IADC0 iadcCmdEnableTimer) (trace m) ->
   transfer_started m = true).
Proof.
  intros m.
  assert (forall before after,
    trace m = before ++ IADC_command IADC0 iadcCmdEnableTimer :: after ->
    existsb is_LDMA_StartTransfer before = true) as Hb.
  { intros before after E.
    apply (preceded_sound _ _ false _ (preceded_reachable ins) _ _ _ E).
    reflexivity. }
  split.
  - intros before after E. apply Hb in E.
    apply existsb_exists in E as (e & Hin & He).
    destruct e; try discriminate He. eauto.
  - intros Hin. apply in_split in Hin as (before & after & E).
    unfold transfer_started. rewrite E, existsb_app, (Hb _ _ E).
    reflexivity.
Qed.

(** *** The pipeline runs once *)

Lemma count_app P l1 l2 : count P (l1 ++ l2) = (count P l1 + count P l2)%nat.
Proof.
  induction l1 as [|e l1 IH]; cbn [app count]; [reflexivity | rewrite IH; lia].
Qed.






(** *** [em_EM2_RTCC] *)

Lemma disableHFClocks_writes_trace m :
  trace (disableHFClocks_writes m) = trace m ++ events_of disableHFClocks_writes.
Proof.
  unfold disableHFClocks_writes. simpl_machine. rewrite <- !app_assoc.
  reflexivity.
Qed.

Lemma em2_inv_transitions osc pd tr0 new c :
  transitions tr0 (WaitHF osc pd) new c -> em2_inv osc pd c new.
Proof.
  induction 1 as [| tr c' new c'' Hts IH Ht].
  - split; reflexivity.
  - destruct Ht as [c | c Hn Hgo | Hgo | | v Hv | | | v Hv | o p v | o p v w
                   | o p v w | o p v w Hv Hw | o p | o p v Hv];
      cbn [em2_inv] in *; try contradiction; trivial.
    + rewrite app_nil_r. exact IH.
    + destruct c; cbn [em2_inv] in *; try contradiction; trivial.
      destruct IH as (-> & -> & Hin). repeat split. apply in_or_app. auto.
    + destruct IH as [-> ->]. repeat split.
      apply in_or_app. right. right. right. left. reflexivity.
    + destruct IH as (-> & -> & Hin). repeat split. apply in_or_app. auto.
    + destruct IH as (-> & -> & Hin).
      exists (tr ++ [STATUS_read LFRCO 0]). rewrite <- app_assoc.
      split; [reflexivity|]. apply in_or_app. auto.
    + destruct IH as (-> & -> & Hin).
      exists (tr ++ [STATUS_read LFRCO v; STATUS_read LFXO 0]).
      rewrite <- app_assoc. split; [reflexivity|]. apply in_or_app. auto.
Qed.

(** C6.  Every call [em_EM2_RTCC osc powerdownRam] that gets as far as the
    sleep has, since the call, first written 1 to the [EN_CLR] register of
    the RTCC (in [disableClocks]) and then, as its last calls before
    [EMU_EnterEM2]: selected [osc] for the RTCC clock and initialised the
    RTCC from [RTCC_INIT_DEFAULT] with prescaler 256 and wrap on CCV1, with
    only the optional RAM power-down in between.  In executions from reset
    the oscillator so selected is always LFRCO. *)
Theorem em_EM2_RTCC_starts_RTCC_before_EM2 :
  (forall osc powerdownRam m0 ins,
      ctl (run ins (em_EM2_RTCC osc powerdownRam m0)) = Sleeping ->
      exists mid,
        trace (run ins (em_EM2_RTCC osc powerdownRam m0)) =
          trace m0 ++ mid ++
            CMU_ClockSelectSet cmuClock_RTCCCLK osc
            :: RTCC_Init {| RTCC_Init_of := RTCC_INIT_DEFAULT_;
                            presc := Some rtccCntPresc_256;
                            cntWrapOnCCV1 := Some true |}
            :: (if powerdownRam then [EMU_RamPowerDown SRAM_BASE 0] else [])
            ++ [EMU_EnterEM2 true] /\
        In (EN_CLR_write RTCC 1) mid) /\
  (forall ins osc,
      In (CMU_ClockSelectSet cmuClock_RTCCCLK osc)
         (trace (run ins reset_state)) ->
      osc = cmuSelect_LFRCO).
Proof.
  split.
  - intros osc pd m0 ins E.
    destruct (run_transitions ins (em_EM2_RTCC osc pd m0)) as (new & Et & Hts).
    apply em2_inv_transitions in Hts.
    rewrite E in Hts. cbn [em2_inv] in Hts.
    destruct Hts as (mid & -> & Hin).
    exists (events_of disableHFClocks_writes ++ mid). split.
    + rewrite Et. unfold em_EM2_RTCC. cbn [trace goto].
      rewrite disableHFClocks_writes_trace, <- !app_assoc.
      destruct pd; reflexivity.
    + apply in_or_app. auto.
  - intros ins osc Hin.
    pose proof (args_inv_reachable ins) as [_ Hargs].
    rewrite Forall_forall in Hargs. apply list_elem_of_In in Hin.
    exact (Hargs _ Hin).
Qed.

(** *** The sample buffer and the RAM *)






(** *** The descriptor built by [initLDMA] *)

(** Whatever its arguments, [initLDMA] leaves in [descriptor] the value of
    the [LDMA_DESCRIPTOR_LINKREL_P2M_BYTE] initialiser for its [buffer] and
    [size] with five members overwritten, [xferCnt] by NUM_SAMPLES, and
    passes it to [LDMA_StartTransfer] on channel 0. *)
Lemma initLDMA_effects buffer size m :
  let desc :=
    {| LDMA_Descriptor_of :=
         LDMA_DESCRIPTOR_LINKREL_P2M_BYTE_
           addr_IADC0_SINGLEFIFODATA buffer size 1;
       xfer_size := Some ldmaCtrlSizeWord;
       xfer_decLoopCnt := Some 1;
       xfer_xferCnt := Some NUM_SAMPLES;
       xfer_doneIfs := Some 1;
       xfer_ignoreSrec := Some 0 |} in
  initLDMA buffer size m =
    {| ctl := ctl m;
       trace :=
         trace m ++
           [LDMA_Init LDMA_INIT_DEFAULT;
            LDMA_StartTransfer 0
              (LDMA_TRANSFER_CFG_PERIPHERAL
                 ldmaPeripheralSignal_IADC0_IADC_SINGLE) desc];
       descriptor := desc;
       singleBuffer := singleBuffer m |}.
Proof.
  unfold initLDMA, call, set_descriptor.
  cbn [ctl trace descriptor singleBuffer]. rewrite <- app_assoc. reflexivity.
Qed.

End Facts.

(** ** The theorems on concrete executions *)

(** The button is up, pressed, released; every oscillator has stopped; the
    CPU sleeps; the LDMA interrupt arrives. *)
Lemma LDMA_IRQHandler_witness :
  transfer_started
    (run ENS_MASK_example ENS_MASK_example to_sleep reset_state) = true /\
  singleBuffer
    (step ENS_MASK_example ENS_MASK_example LdmaDone
       (run ENS_MASK_example ENS_MASK_example to_sleep reset_state)) =
  singleBuffer (run ENS_MASK_example ENS_MASK_example to_sleep reset_state).
Proof.
  split; [reflexivity|].
  apply (proj2 (LDMA_IRQHandler_effects ENS_MASK_example ENS_MASK_example)
           (run ENS_MASK_example ENS_MASK_example to_sleep reset_state)).
  reflexivity.
Defined.

Lemma disableLFClocks_returns_witness :
  ctl (run ENS_MASK_example ENS_MASK_example to_WaitLF reset_state)
    = WaitLF cmuSelect_LFRCO false /\
  (lfrco_status lfxo_running = 0 \/ lfxo_status lfxo_running = 0).
Proof.
  split; [reflexivity|].
  apply (proj1 (disableLFClocks_returns_when_either_stopped
                  ENS_MASK_example ENS_MASK_example)
           cmuSelect_LFRCO false lfxo_running
           (run ENS_MASK_example ENS_MASK_example to_WaitLF reset_state)
           eq_refl).
  vm_compute. discriminate.
Defined.

Lemma startup_wait_witness :
  past_button_wait
    (ctl (run ENS_MASK_example ENS_MASK_example to_sleep reset_state)) = true /\
  exists pre post v,
    trace (run ENS_MASK_example ENS_MASK_example to_sleep reset_state) =
      pre ++ GPIO_PinInGet gpioPortD 2 v
          :: GPIO_PinModeSet gpioPortD 2 gpioModeDisabled 1 :: post /\
    press_and_release (pb0_reads pre ++ [v]) /\
    pb0_reads post = [].
Proof.
  split; [reflexivity|].
  apply (startup_wait_is_press_then_release
           ENS_MASK_example ENS_MASK_example to_sleep).
  reflexivity.
Defined.


Lemma LDMA_started_before_timer_witness :
  In (IADC_command IADC0 iadcCmdEnableTimer)
     (trace (run ENS_MASK_example ENS_MASK_example to_halt reset_state)) /\
  transfer_started
    (run ENS_MASK_example ENS_MASK_example to_halt reset_state) = true.
Proof.
  assert (In (IADC_command IADC0 iadcCmdEnableTimer)
            (trace (run ENS_MASK_example ENS_MASK_example to_halt reset_state)))
    as Hin.
  { vm_compute. repeat (first [left; reflexivity | right]). }
  split; [exact Hin|].
  apply (LDMA_started_before_timer_enabled
           ENS_MASK_example ENS_MASK_example to_halt).
  exact Hin.
Defined.


(** A call with LFXO and RAM power-down, from the reset state. *)
Lemma em_EM2_RTCC_witness :
  ctl (run ENS_MASK_example ENS_MASK_example
         [Run (button 1); Run (button 1)]
         (em_EM2_RTCC cmuSelect_LFXO true reset_state)) = Sleeping /\
  exists mid,
    trace (run ENS_MASK_example ENS_MASK_example
             [Run (button 1); Run (button 1)]
             (em_EM2_RTCC cmuSelect_LFXO true reset_state)) =
      trace reset_state ++ mid ++
        CMU_ClockSelectSet cmuClock_RTCCCLK cmuSelect_LFXO
        :: RTCC_Init {| RTCC_Init_of := RTCC_INIT_DEFAULT_;
                        presc := Some rtccCntPresc_256;
                        cntWrapOnCCV1 := Some true |}
        :: [EMU_RamPowerDown SRAM_BASE 0] ++ [EMU_EnterEM2 true] /\
    In (EN_CLR_write RTCC 1) mid.
Proof.
  split; [reflexivity|].
  apply (proj1 (em_EM2_RTCC_starts_RTCC_before_EM2
                  ENS_MASK_example ENS_MASK_example)
           cmuSelect_LFXO true reset_state [Run (button 1); Run (button 1)]).
  reflexivity.
Defined.


(** ** Executions in which the interrupt comes before the sleep *)



(** ** Further properties of the program *)

Section More.

Variables hfrco_mask hfxo_mask : Z.

Local Abbreviation step := (step hfrco_mask hfxo_mask).
Local Abbreviation run := (run hfrco_mask hfxo_mask).

(** *** The loop of [disableHFClocks] *)

(** X1.  The loop of [disableHFClocks] (line 288) is left exactly when the
    ENS bits are clear in both HFRCO0->STATUS and HFXO0->STATUS; otherwise
    control stays in the loop.  When the bits of HFRCO0 are set, HFXO0 is not
    read in that round. *)
Theorem disableHFClocks_waits_for_both osc pd r m :
  ctl m = WaitHF osc pd ->
  (ctl (step (Run r) m) = WaitLF osc pd <->
   Z.land (hfrco0_status r) hfrco_mask = 0 /\
   Z.land (hfxo0_status r) hfxo_mask = 0) /\
  (ctl (step (Run r) m) = WaitHF osc pd \/
   ctl (step (Run r) m) = WaitLF osc pd) /\
  (Z.land (hfrco0_status r) hfrco_mask <> 0 ->
   trace (step (Run r) m) = trace m ++ [STATUS_read HFRCO0 (hfrco0_status r)]).
Proof.
  intros E. simpl_step. unfold_main_step. rewrite E.
  unfold disableHFClocks_cond.
  destruct (Z.eqb_spec (Z.land (hfrco0_status r) hfrco_mask) 0) as [H1|H1];
    cbn [negb];
    [destruct (Z.eqb_spec (Z.land (hfxo0_status r) hfxo_mask) 0) as [H2|H2];
     cbn [negb]|].
  - split; [|split].
    + split; [intros _; split; assumption | reflexivity].
    + right. reflexivity.
    + intros N. contradiction.
  - split; [|split].
    + simpl_machine. rewrite E. split; [discriminate | intros [_ N]; contradiction].
    + left. simpl_machine. exact E.
    + intros N. contradiction.
  - split; [|split].
    + simpl_machine. rewrite E. split; [discriminate | intros [N _]; contradiction].
    + left. simpl_machine. exact E.
    + intros _. reflexivity.
Qed.

(** *** Control only moves forward *)

Lemma rank_step i m : (rank (ctl m) <= rank (ctl (step i m)))%nat.
Proof.
  destruct (step_transition hfrco_mask hfxo_mask i m) as (new & _ & Ht).
  destruct Ht; cbn [rank]; lia.
Qed.

(** X2.  Along any execution, from any state, [main] never returns to an
    earlier waiting point: the position of control does not decrease. *)
Theorem control_never_goes_back later m :
  (rank (ctl m) <= rank (ctl (run later m)))%nat.
Proof.
  induction later as [|i later IH] using rev_ind; [reflexivity|].
  rewrite (run_snoc hfrco_mask hfxo_mask).
  pose proof (rank_step i (run later m)). lia.
Qed.

(** *** The global [descriptor] *)

Lemma descriptor_step i m :
  descriptor m =
    (if past_button_wait (ctl m) then singleBuffer_descriptor
     else zero_descriptor) ->
  descriptor (step i m) =
    (if past_button_wait (ctl (step i m)) then singleBuffer_descriptor
     else zero_descriptor).
Proof.
  intros Hd. destruct i as [r | k v | ]; simpl_step.
  - unfold_main_step. destruct (ctl m) eqn:E; cbn [past_button_wait] in Hd.
    + exact Hd.
    + destruct (negb (pb0 r =? PB_PRESSED)); simpl_machine;
        rewrite ?E; exact Hd.
    + destruct (pb0 r =? PB_PRESSED).
      * simpl_machine. rewrite E. exact Hd.
      * unfold main_pipeline, em_EM2_RTCC, disableHFClocks_writes, initLDMA.
        simpl_machine. reflexivity.
    + unfold disableHFClocks_cond.
      destruct (negb (Z.land (hfrco0_status r) hfrco_mask =? 0));
        [|destruct (negb (Z.land (hfxo0_status r) hfxo_mask =? 0))];
        simpl_machine; rewrite ?E; exact Hd.
    + unfold disableLFClocks_cond.
      destruct (negb (lfrco_status r =? 0));
        [destruct (negb (lfxo_status r =? 0))|];
        try destruct powerdownRam; simpl_machine; rewrite ?E; exact Hd.
    + rewrite E. exact Hd.
    + rewrite E. exact Hd.
  - destruct (transfer_started m); simpl_machine; exact Hd.
  - destruct (transfer_started m); [|exact Hd].
    rewrite LDMA_IRQHandler_unfold. cbn [ctl].
    destruct (ctl m); simpl_machine; exact Hd.
Qed.

(** X3.  In every execution from reset, [descriptor] is all zero until
    [main] is past its startup wait, and from then on it is the descriptor
    built by [initLDMA] for [singleBuffer]: nothing modifies it after
    [LDMA_StartTransfer] received it, neither the rest of [main] nor the
    interrupt handler. *)
Theorem descriptor_written_once (ins : list input) :
  descriptor (run ins reset_state) =
    if past_button_wait (ctl (run ins reset_state))
    then singleBuffer_descriptor else zero_descriptor.
Proof.
  induction ins as [|i ins IH] using rev_ind; [reflexivity|].
  rewrite (run_snoc hfrco_mask hfxo_mask). apply descriptor_step. exact IH.
Qed.

(** *** Before the button has been pressed and released *)

(** X4.  In every execution from reset, as long as [main] has not left its
    second button loop, the only calls made are [CHIP_Init], the
    configuration of PB0 as input and polls of PB0: no clock, IADC, LDMA or
    RTCC call, no LED, no interrupt handler. *)
Theorem nothing_before_the_button (ins : list input) :
  past_button_wait (ctl (run ins reset_state)) = false ->
  forallb is_startup_event (trace (run ins reset_state)) = true.
Proof.
  intros Hp.
  apply (invariant_from_reset hfrco_mask hfxo_mask
           (fun c tr => past_button_wait c = false ->
                        forallb is_startup_event tr = true /\
                        existsb is_LDMA_StartTransfer tr = false));
    [split; reflexivity | | exact Hp].
  clear. intros c tr new c' Hi Ht.
  destruct Ht as [c | c Hn Hgo | Hgo | | v Hv | | | v Hv | osc pd v | osc pd v w
                 | osc pd v w | osc pd v w Hv Hw | osc pd | osc pd v Hv];
    cbn [past_button_wait] in *; try discriminate;
    intros Hp; rewrite forallb_app, existsb_app.
  - cbn [forallb existsb]. rewrite andb_true_r, orb_false_r. exact (Hi Hp).
  - destruct (Hi Hp) as [_ H]. congruence.
  - destruct (Hi Hp) as [-> ->]. split; reflexivity.
  - destruct (Hi Hp) as [-> ->]. split; reflexivity.
  - destruct (Hi Hp) as [-> ->]. split; reflexivity.
  - destruct (Hi Hp) as [-> ->]. split; reflexivity.
Qed.

(** *** The order of the initialisation calls *)

(** Every step keeps "each [Q] has a [P] before it", for calls [P] made
    before the transfer is started and calls [Q] made by [main] after [P]
    or by the handler. *)
Ltac order_from_reset P Q :=
  apply (invariant_from_reset _ _
           (fun _ tr => preceded P Q false tr = true /\
                        (existsb is_LDMA_StartTransfer tr = true ->
                         existsb P tr = true)));
  [split; [reflexivity | discriminate]|];
  let c := fresh "c" in let tr := fresh "tr" in
  let Hp := fresh "Hp" in let Hs := fresh "Hs" in let Ht := fresh "Ht" in
  let Hgo := fresh "Hgo" in let H := fresh "Hstarted" in
  let pd := fresh "pd" in
  intros c tr ? ? [Hp Hs] Ht;
  rewrite preceded_app, !existsb_app, Hp; cbn [andb orb];
  destruct Ht as [? | ? ? Hgo | Hgo | | ? ? | | | ? ? | ? pd ? | ? pd ? ?
                 | ? pd ? ? | ? pd ? ? ? ? | ? pd | ? pd ? ?];
  try destruct pd;
  try rewrite (Hs Hgo);
  (split;
   [ destruct (existsb P tr); vm_compute; reflexivity
   | intros H; destruct (existsb is_LDMA_StartTransfer tr);
     [ rewrite ?(Hs eq_refl); reflexivity
     | first [ vm_compute in H; discriminate H
             | apply orb_true_iff; right; vm_compute; reflexivity ] ] ]).

Lemma LED1_after_PB1_output ins :
  preceded is_PB1_output is_LED1_set false (trace (run ins reset_state)) = true
  /\ (existsb is_LDMA_StartTransfer (trace (run ins reset_state)) = true ->
      existsb is_PB1_output (trace (run ins reset_state)) = true).
Proof. order_from_reset is_PB1_output is_LED1_set. Qed.

Lemma IADC_init_after_reset ins :
  preceded is_IADC_reset is_IADC_init false (trace (run ins reset_state)) = true
  /\ (existsb is_LDMA_StartTransfer (trace (run ins reset_state)) = true ->
      existsb is_IADC_reset (trace (run ins reset_state)) = true).
Proof. order_from_reset is_IADC_reset is_IADC_init. Qed.

Lemma IADC_init_after_clock_select ins :
  preceded is_IADC_clock_select is_IADC_init false
    (trace (run ins reset_state)) = true
  /\ (existsb is_LDMA_StartTransfer (trace (run ins reset_state)) = true ->
      existsb is_IADC_clock_select (trace (run ins reset_state)) = true).
Proof. order_from_reset is_IADC_clock_select is_IADC_init. Qed.

Lemma IADC_initSingle_after_init ins :
  preceded is_IADC_init is_IADC_initSingle false
    (trace (run ins reset_state)) = true
  /\ (existsb is_LDMA_StartTransfer (trace (run ins reset_state)) = true ->
      existsb is_IADC_init (trace (run ins reset_state)) = true).
Proof. order_from_reset is_IADC_init is_IADC_initSingle. Qed.

Lemma LDMA_StartTransfer_after_Init ins :
  preceded is_LDMA_Init is_LDMA_StartTransfer false
    (trace (run ins reset_state)) = true
  /\ (existsb is_LDMA_StartTransfer (trace (run ins reset_state)) = true ->
      existsb is_LDMA_Init (trace (run ins reset_state)) = true).
Proof. order_from_reset is_LDMA_Init is_LDMA_StartTransfer. Qed.

Lemma StopSingle_after_EnableTimer ins :
  preceded is_EnableTimer is_StopSingle false
    (trace (run ins reset_state)) = true
  /\ (existsb is_LDMA_StartTransfer (trace (run ins reset_state)) = true ->
      existsb is_EnableTimer (trace (run ins reset_state)) = true).
Proof. order_from_reset is_EnableTimer is_StopSingle. Qed.

Lemma IntClear_after_StartTransfer ins :
  preceded is_LDMA_StartTransfer is_LDMA_IntClear false
    (trace (run ins reset_state)) = true.
Proof.
  apply (invariant_from_reset hfrco_mask hfxo_mask
           (fun _ tr => preceded is_LDMA_StartTransfer is_LDMA_IntClear
                          false tr = true)); [reflexivity|].
  intros c tr new c' Hp Ht. rewrite preceded_app, Hp. cbn [andb orb].
  destruct Ht as [c | c Hn Hgo | Hgo | | v Hv | | | v Hv | osc pd v | osc pd v w
                 | osc pd v w | osc pd v w Hv Hw | osc pd | osc pd v Hv];
    try destruct pd; try rewrite Hgo;
    try (destruct (existsb is_LDMA_StartTransfer tr));
    vm_compute; reflexivity.
Qed.

(** X5.  In every execution from reset, wherever the trace splits as
    [before ++ e :: after]: a call setting LED1 has the configuration of PB1
    as push-pull output before it; [IADC_init] has [IADC_reset] and the
    selection of the IADC clock before it; [IADC_initSingle] has [IADC_init]
    before it; [LDMA_StartTransfer] has [LDMA_Init] before it; a stop-single
    command has the timer-enable command before it; and a clearing of the
    LDMA flag has [LDMA_StartTransfer] before it. *)
Theorem initialisation_order (ins : list input) before e after :
  trace (run ins reset_state) = before ++ e :: after ->
  (is_LED1_set e = true -> existsb is_PB1_output before = true) /\
  (is_IADC_init e = true ->
   existsb is_IADC_reset before = true /\
   existsb is_IADC_clock_select before = true) /\
  (is_IADC_initSingle e = true -> existsb is_IADC_init before = true) /\
  (is_LDMA_StartTransfer e = true -> existsb is_LDMA_Init before = true) /\
  (is_StopSingle e = true -> existsb is_EnableTimer before = true) /\
  (is_LDMA_IntClear e = true -> existsb is_LDMA_StartTransfer before = true).
Proof.
  intros E.
  pose proof (fun P Q H => preceded_sound P Q false _ H before e after E) as S.
  cbn [orb] in S.
  split; [|split; [|split; [|split; [|split]]]]; intros He.
  - exact (S _ _ (proj1 (LED1_after_PB1_output ins)) He).
  - split.
    + exact (S _ _ (proj1 (IADC_init_after_reset ins)) He).
    + exact (S _ _ (proj1 (IADC_init_after_clock_select ins)) He).
  - exact (S _ _ (proj1 (IADC_initSingle_after_init ins)) He).
  - exact (S _ _ (proj1 (LDMA_StartTransfer_after_Init ins)) He).
  - exact (S _ _ (proj1 (StopSingle_after_EnableTimer ins)) He).
  - exact (S _ _ (IntClear_after_StartTransfer ins) He).
Qed.

(** *** The order of the calls that shut the clocks down *)

(** Same, for calls [Q] that the handler does not make and calls [P] that
    have all been made once control is at position [k]. *)
Ltac order_in_main k P Q :=
  apply (invariant_from_reset _ _
           (fun c tr => preceded P Q false tr = true /\
                        ((k <= rank c)%nat -> existsb P tr = true)));
  [split; [reflexivity | cbn [rank]; lia]|];
  let tr := fresh "tr" in let Hp := fresh "Hp" in let Ht := fresh "Ht" in
  let Hs := fresh "Hs" in let pd := fresh "pd" in
  intros ? tr ? ? [Hp Hs] Ht; rewrite preceded_app, existsb_app, Hp;
  cbn [andb orb];
  destruct Ht as [? | ? ? ? | ? | | ? ? | | | ? ? | ? pd ? | ? pd ? ?
                 | ? pd ? ? | ? pd ? ? ? ? | ? pd | ? pd ? ?];
  try destruct pd; cbn [rank] in *;
  (split;
   [ try (rewrite Hs by lia);
     first
       [ solve [destruct (existsb P tr); vm_compute; reflexivity]
       | solve [vm_compute; reflexivity]
       | match goal with
         | |- preceded _ _ ?s (?a :: ?l) = true =>
             change (preceded P Q s ([a] ++ l) = true);
             rewrite preceded_app;
             generalize (s || existsb P [a]); intros [|];
             destruct s; vm_compute; reflexivity
         end ]
   | intros ?;
     first [ rewrite Hs by lia; reflexivity
           | apply orb_true_iff; right; vm_compute; reflexivity
           | exfalso; lia
           | apply orb_true_iff; right; unfold P; cbn [existsb];
             repeat match goal with
                    | |- context [Z.eqb ?v 0] =>
                        is_var v; destruct (Z.eqb v 0)
                    end;
             vm_compute; reflexivity ] ]).

Lemma HF_poll_after_FSRCO ins :
  preceded is_SYSCLK_FSRCO (is_STATUS_read HFRCO0) false
    (trace (run ins reset_state)) = true /\
  ((3 <= rank (ctl (run ins reset_state)))%nat ->
   existsb is_SYSCLK_FSRCO (trace (run ins reset_state)) = true).
Proof. order_in_main 3%nat is_SYSCLK_FSRCO (is_STATUS_read HFRCO0). Qed.

Lemma LF_poll_after_LF_disable ins :
  preceded is_LF_disable (is_STATUS_read LFRCO) false
    (trace (run ins reset_state)) = true /\
  ((4 <= rank (ctl (run ins reset_state)))%nat ->
   existsb is_LF_disable (trace (run ins reset_state)) = true).
Proof. order_in_main 4%nat is_LF_disable (is_STATUS_read LFRCO). Qed.

Lemma RTCC_Init_after_LF_stopped ins :
  preceded is_LF_stopped_read is_RTCC_Init false
    (trace (run ins reset_state)) = true /\
  ((5 <= rank (ctl (run ins reset_state)))%nat ->
   existsb is_LF_stopped_read (trace (run ins reset_state)) = true).
Proof. order_in_main 5%nat is_LF_stopped_read is_RTCC_Init. Qed.

Lemma EnterEM2_after_RTCC_Init ins :
  preceded is_RTCC_Init is_EnterEM2 false
    (trace (run ins reset_state)) = true /\
  ((5 <= rank (ctl (run ins reset_state)))%nat ->
   existsb is_RTCC_Init (trace (run ins reset_state)) = true).
Proof. order_in_main 5%nat is_RTCC_Init is_EnterEM2. Qed.

(** The low-frequency peripherals are disabled only after a round of the
    HF loop that found the ENS bits clear. *)
Lemma LF_disable_step (P : event -> bool) i m :
  (forall v w s,
      Z.land v hfrco_mask = 0 -> Z.land w hfxo_mask = 0 ->
      s || existsb P [STATUS_read HFRCO0 v; STATUS_read HFXO0 w] = true) ->
  preceded P is_LF_disable false (trace m) = true ->
  preceded P is_LF_disable false (trace (step i m)) = true.
Proof.
  intros HP Hp.
  assert (forall new,
             trace (step i m) = trace m ++ new ->
             (forall s, preceded P is_LF_disable s new = true) ->
             preceded P is_LF_disable false (trace (step i m)) = true) as Hgen.
  { intros new -> H. rewrite preceded_app, Hp, H. reflexivity. }
  destruct i as [r | k v | ].
  - destruct (ctl m) as [ | | | osc pd | osc pd | | ] eqn:E.
    4: {
      simpl_step. unfold_main_step. rewrite E. unfold disableHFClocks_cond.
      destruct (Z.eqb_spec (Z.land (hfrco0_status r) hfrco_mask) 0) as [H1|H1];
        cbn [negb];
        [destruct (Z.eqb_spec (Z.land (hfxo0_status r) hfxo_mask) 0)
           as [H2|H2]; cbn [negb]|].
      - cbn [trace goto]. rewrite disableLFClocks_writes_trace.
        simpl_machine. rewrite <- !app_assoc. cbn [app].
        change (STATUS_read HFRCO0 (hfrco0_status r)
                  :: STATUS_read HFXO0 (hfxo0_status r)
                  :: events_of disableLFClocks_writes)
          with ([STATUS_read HFRCO0 (hfrco0_status r);
                 STATUS_read HFXO0 (hfxo0_status r)]
                  ++ events_of disableLFClocks_writes).
        rewrite !preceded_app, Hp, (HP _ _ _ H1 H2). reflexivity.
      - simpl_machine. rewrite !preceded_app, Hp. reflexivity.
      - simpl_machine. rewrite !preceded_app, Hp. reflexivity. }
    all: destruct (step_transition hfrco_mask hfxo_mask (Run r) m)
           as (new & Et & Ht);
      rewrite E in Ht; apply (Hgen new Et); intros s;
      inversion Ht; subst; try destruct pd; reflexivity.
  - simpl_step. destruct (transfer_started m); exact Hp.
  - simpl_step. destruct (transfer_started m); [|exact Hp].
    rewrite LDMA_IRQHandler_unfold. cbn [ctl].
    destruct (ctl m); simpl_machine; rewrite preceded_app, Hp; reflexivity.
Qed.

Lemma LF_disable_after_HF_clear (P : event -> bool) ins :
  (forall v w s,
      Z.land v hfrco_mask = 0 -> Z.land w hfxo_mask = 0 ->
      s || existsb P [STATUS_read HFRCO0 v; STATUS_read HFXO0 w] = true) ->
  preceded P is_LF_disable false (trace (run ins reset_state)) = true.
Proof.
  intros HP. induction ins as [|i ins IH] using rev_ind; [reflexivity|].
  rewrite (run_snoc hfrco_mask hfxo_mask). apply LF_disable_step; assumption.
Qed.

(** X6.  In every execution from reset, wherever the trace splits as
    [before ++ e :: after]: a read of HFRCO0->STATUS has the switch of
    SYSCLK to FSRCO before it; a write to the EN_CLR register of a
    low-frequency peripheral has before it reads of HFRCO0->STATUS and of
    HFXO0->STATUS with the ENS bits clear; a read of LFRCO->STATUS has the
    disabling of the low-frequency peripherals before it; [RTCC_Init] has a
    read of a low-frequency oscillator's STATUS as 0 before it; and
    [EMU_EnterEM2] has [RTCC_Init] before it. *)
Theorem clock_shutdown_order (ins : list input) before e after :
  trace (run ins reset_state) = before ++ e :: after ->
  (is_STATUS_read HFRCO0 e = true -> existsb is_SYSCLK_FSRCO before = true) /\
  (is_LF_disable e = true ->
   existsb (is_HF_clear_read HFRCO0 hfrco_mask) before = true /\
   existsb (is_HF_clear_read HFXO0 hfxo_mask) before = true) /\
  (is_STATUS_read LFRCO e = true -> existsb is_LF_disable before = true) /\
  (is_RTCC_Init e = true -> existsb is_LF_stopped_read before = true) /\
  (is_EnterEM2 e = true -> existsb is_RTCC_Init before = true).
Proof.
  intros E.
  pose proof (fun P Q H => preceded_sound P Q false _ H before e after E) as S.
  cbn [orb] in S.
  split; [|split; [|split; [|split]]]; intros He.
  - exact (S _ _ (proj1 (HF_poll_after_FSRCO ins)) He).
  - split.
    + refine (S _ _ (LF_disable_after_HF_clear _ ins _) He).
      intros v w s H1 H2. cbn. rewrite H1. cbn. apply orb_true_r.
    + refine (S _ _ (LF_disable_after_HF_clear _ ins _) He).
      intros v w s H1 H2. cbn. rewrite H2. cbn. apply orb_true_r.
  - exact (S _ _ (proj1 (LF_poll_after_LF_disable ins)) He).
  - exact (S _ _ (proj1 (RTCC_Init_after_LF_stopped ins)) He).
  - exact (S _ _ (proj1 (EnterEM2_after_RTCC_Init ins)) He).
Qed.

(** *** The pipeline runs to the sleep *)

Lemma run_map_app rs1 rs2 m :
  run (map Run (rs1 ++ rs2)) m = run (map Run rs2) (run (map Run rs1) m).
Proof. rewrite map_app. apply run_app. Qed.

Lemma stay_in_loop (c : control) (stay : readings -> bool) :
  (forall r m, ctl m = c -> stay r = true -> ctl (step (Run r) m) = c) ->
  forall rs m,
    ctl m = c -> forallb stay rs = true -> ctl (run (map Run rs) m) = c.
Proof.
  intros Hstay rs. induction rs as [|r rs IH]; intros m E Hf; [exact E|].
  cbn [forallb] in Hf. apply andb_true_iff in Hf as [Hr Hf].
  change (run (map Run (r :: rs)) m) with (run (map Run rs) (step (Run r) m)).
  apply IH; [apply Hstay; assumption | exact Hf].
Qed.

Lemma step_Reset r m : ctl m = Reset -> ctl (step (Run r) m) = WaitPress.
Proof. intros E. simpl_step. unfold_main_step. rewrite E. reflexivity. Qed.

Lemma step_WaitPress r m :
  ctl m = WaitPress ->
  ctl (step (Run r) m) = if pb0 r =? 0 then WaitRelease else WaitPress.
Proof.
  intros E. simpl_step. unfold_main_step. rewrite E. unfold PB_PRESSED.
  destruct (pb0 r =? 0); simpl_machine; [reflexivity | exact E].
Qed.

Lemma step_WaitRelease r m :
  ctl m = WaitRelease ->
  ctl (step (Run r) m) =
    if pb0 r =? 0 then WaitRelease else WaitHF cmuSelect_LFRCO false.
Proof.
  intros E. simpl_step. unfold_main_step. rewrite E. unfold PB_PRESSED.
  destruct (pb0 r =? 0); simpl_machine; [exact E | reflexivity].
Qed.

Lemma step_WaitHF osc pd r m :
  ctl m = WaitHF osc pd ->
  ctl (step (Run r) m) =
    if (Z.land (hfrco0_status r) hfrco_mask =? 0)
       && (Z.land (hfxo0_status r) hfxo_mask =? 0)
    then WaitLF osc pd else WaitHF osc pd.
Proof.
  intros E. simpl_step. unfold_main_step. rewrite E.
  unfold disableHFClocks_cond.
  destruct (Z.land (hfrco0_status r) hfrco_mask =? 0);
    [destruct (Z.land (hfxo0_status r) hfxo_mask =? 0)|];
    simpl_machine; cbn [negb andb]; try exact E; reflexivity.
Qed.

Lemma step_WaitLF osc pd r m :
  ctl m = WaitLF osc pd ->
  ctl (step (Run r) m) =
    if (lfrco_status r =? 0) || (lfxo_status r =? 0)
    then Sleeping else WaitLF osc pd.
Proof.
  intros E. simpl_step. unfold_main_step. rewrite E.
  unfold disableLFClocks_cond.
  destruct (lfrco_status r =? 0); [|destruct (lfxo_status r =? 0)];
    cbn [negb orb]; try reflexivity.
  simpl_machine. exact E.
Qed.

(** X7.  If, after reset, PB0 reads not pressed any number of times, then
    pressed at least once, then released; the HF loop then sees the ENS bits
    set any number of times and then clear in both registers; and the LF
    loop sees both statuses non-zero any number of times and then one of
    them 0: then the CPU is asleep in EM2.  When the LDMA interrupt then
    arrives, [main] is in its final loop and LED1 has been set. *)
Theorem pipeline_reaches_sleep r0 ups d downs rel hfs hfdone lfs lfdone :
  forallb (fun r => negb (pb0 r =? 0)) ups = true ->
  forallb (fun r => pb0 r =? 0) (d :: downs) = true ->
  (pb0 rel =? 0) = false ->
  forallb (fun r => negb ((Z.land (hfrco0_status r) hfrco_mask =? 0)
                          && (Z.land (hfxo0_status r) hfxo_mask =? 0)))
          hfs = true ->
  (Z.land (hfrco0_status hfdone) hfrco_mask =? 0)
    && (Z.land (hfxo0_status hfdone) hfxo_mask =? 0) = true ->
  forallb (fun r => negb ((lfrco_status r =? 0) || (lfxo_status r =? 0)))
          lfs = true ->
  (lfrco_status lfdone =? 0) || (lfxo_status lfdone =? 0) = true ->
  let ins :=
    map Run (r0 :: ups ++ d :: downs ++ rel :: hfs ++ hfdone :: lfs
                ++ [lfdone]) in
  ctl (run ins reset_state) = Sleeping /\
  ctl (run (ins ++ [LdmaDone]) reset_state) = Halt /\
  In (GPIO_PinOutSet gpioPortB 1)
     (trace (run (ins ++ [LdmaDone]) reset_state)).
Proof.
  intros Hups Hdowns Hrel Hhfs Hhf Hlfs Hlf ins.
  cbn [forallb] in Hdowns. apply andb_true_iff in Hdowns as [Hd Hdowns].
  assert (ctl (run ins reset_state) = Sleeping) as Hsleep.
  { unfold ins.
    change (r0 :: ups ++ d :: downs ++ rel :: hfs ++ hfdone :: lfs ++ [lfdone])
      with ([r0] ++ ups ++ [d] ++ downs ++ [rel] ++ hfs ++ [hfdone] ++ lfs
              ++ [lfdone]).
    rewrite !run_map_app.
    set (m1 := run (map Run [r0]) reset_state).
    assert (ctl m1 = WaitPress) as E1 by (apply step_Reset; reflexivity).
    set (m2 := run (map Run ups) m1).
    assert (ctl m2 = WaitPress) as E2.
    { apply (stay_in_loop WaitPress (fun r => negb (pb0 r =? 0)));
        [|exact E1 | exact Hups].
      intros r m E Hr. rewrite (step_WaitPress r m E).
      destruct (pb0 r =? 0); [discriminate Hr | reflexivity]. }
    set (m3 := run (map Run [d]) m2).
    assert (ctl m3 = WaitRelease) as E3.
    { unfold m3. change (run (map Run [d]) m2) with (step (Run d) m2).
      rewrite (step_WaitPress d m2 E2), Hd. reflexivity. }
    set (m4 := run (map Run downs) m3).
    assert (ctl m4 = WaitRelease) as E4.
    { apply (stay_in_loop WaitRelease (fun r => pb0 r =? 0));
        [|exact E3 | exact Hdowns].
      intros r m E Hr. rewrite (step_WaitRelease r m E), Hr. reflexivity. }
    set (m5 := run (map Run [rel]) m4).
    assert (ctl m5 = WaitHF cmuSelect_LFRCO false) as E5.
    { unfold m5. change (run (map Run [rel]) m4) with (step (Run rel) m4).
      rewrite (step_WaitRelease rel m4 E4), Hrel. reflexivity. }
    set (m6 := run (map Run hfs) m5).
    assert (ctl m6 = WaitHF cmuSelect_LFRCO false) as E6.
    { refine (stay_in_loop _ _ _ hfs m5 E5 Hhfs).
      intros r m E Hr. cbv beta in Hr.
      rewrite (step_WaitHF _ _ r m E).
      destruct ((Z.land (hfrco0_status r) hfrco_mask =? 0)
                && (Z.land (hfxo0_status r) hfxo_mask =? 0));
        [discriminate Hr | reflexivity]. }
    set (m7 := run (map Run [hfdone]) m6).
    assert (ctl m7 = WaitLF cmuSelect_LFRCO false) as E7.
    { unfold m7.
      change (run (map Run [hfdone]) m6) with (step (Run hfdone) m6).
      rewrite (step_WaitHF _ _ hfdone m6 E6), Hhf. reflexivity. }
    set (m8 := run (map Run lfs) m7).
    assert (ctl m8 = WaitLF cmuSelect_LFRCO false) as E8.
    { refine (stay_in_loop _ _ _ lfs m7 E7 Hlfs).
      intros r m E Hr. cbv beta in Hr.
      rewrite (step_WaitLF _ _ r m E).
      destruct ((lfrco_status r =? 0) || (lfxo_status r =? 0));
        [discriminate Hr | reflexivity]. }
    change (run (map Run [lfdone]) m8) with (step (Run lfdone) m8).
    rewrite (step_WaitLF _ _ lfdone m8 E8), Hlf. reflexivity. }
  split; [exact Hsleep|].
  pose proof (progress_inv_reachable hfrco_mask hfxo_mask ins) as [Hst _].
  rewrite Hsleep in Hst. specialize (Hst eq_refl).
  destruct (wake_up hfrco_mask hfxo_mask _ Hsleep Hst) as [Hh Ht].
  rewrite (run_snoc hfrco_mask hfxo_mask). split; [exact Hh|].
  rewrite Ht. apply in_or_app. right. right. right. left. reflexivity.
Qed.

(** *** RAM power-down in [em_EM2_RTCC] *)

Lemma em2_ram_transitions osc pd tr0 new c :
  transitions tr0 (WaitHF osc pd) new c ->
  match c with
  | WaitHF o p | WaitLF o p =>
      o = osc /\ p = pd /\ count is_RamPowerDown new = 0%nat
  | Sleeping | Halt =>
      count is_RamPowerDown new = (if pd then 1 else 0)%nat
  | _ => False
  end.
Proof.
  induction 1 as [| tr c' new c'' Hts IH Ht].
  - repeat split.
  - destruct Ht as [c | c Hn Hgo | Hgo | | v Hv | | | v Hv | o p v | o p v w
                   | o p v w | o p v w Hv Hw | o p | o p v Hv];
      try contradiction; rewrite count_app.
    + cbn [count]. rewrite Nat.add_0_r. exact IH.
    + destruct c; try contradiction;
        try (destruct IH as (-> & -> & ->); repeat split);
        try (rewrite IH; destruct pd; reflexivity).
    + rewrite IH. destruct pd; reflexivity.
    + destruct IH as (-> & -> & ->). repeat split.
    + destruct IH as (-> & -> & ->). repeat split.
    + destruct IH as (-> & -> & ->). repeat split.
    + destruct IH as (-> & -> & ->). repeat split.
    + destruct IH as (-> & -> & ->). destruct pd; reflexivity.
    + destruct IH as (-> & -> & ->). destruct pd; reflexivity.
Qed.

(** X8.  A call [em_EM2_RTCC osc powerdownRam], from any state and whatever
    happens afterwards, calls [EMU_RamPowerDown] exactly once if
    [powerdownRam] is true and never if it is false, and it does so only on
    its way out of the LF loop: while it waits in its loops the number of
    such calls is what it was before the call. *)
Theorem em_EM2_RTCC_RamPowerDown_count osc powerdownRam m0 ins :
  count is_RamPowerDown
    (trace (run ins (em_EM2_RTCC osc powerdownRam m0))) =
  (count is_RamPowerDown (trace m0) +
   match ctl (run ins (em_EM2_RTCC osc powerdownRam m0)) with
   | Sleeping | Halt => if powerdownRam then 1 else 0
   | _ => 0
   end)%nat.
Proof.
  destruct (run_transitions hfrco_mask hfxo_mask ins
              (em_EM2_RTCC osc powerdownRam m0)) as (new & Et & Hts).
  apply em2_ram_transitions in Hts. rewrite Et, count_app.
  unfold em_EM2_RTCC at 1. cbn [trace goto].
  rewrite disableHFClocks_writes_trace, count_app.
  change (count is_RamPowerDown (events_of disableHFClocks_writes))
    with 0%nat.
  destruct (ctl (run ins (em_EM2_RTCC osc powerdownRam m0)));
    try contradiction; try (destruct Hts as (_ & _ & ->)); try rewrite Hts;
    lia.
Qed.

End More.

(** ** The further properties on concrete executions *)

Lemma disableHFClocks_witness :
  ctl (run ENS_MASK_example ENS_MASK_example
         [Run (button 1); Run (button 0); Run (button 1)] reset_state)
    = WaitHF cmuSelect_LFRCO false /\
  (ctl (step ENS_MASK_example ENS_MASK_example (Run (button 1))
          (run ENS_MASK_example ENS_MASK_example
             [Run (button 1); Run (button 0); Run (button 1)] reset_state))
     = WaitLF cmuSelect_LFRCO false <->
   Z.land (hfrco0_status (button 1)) ENS_MASK_example = 0 /\
   Z.land (hfxo0_status (button 1)) ENS_MASK_example = 0).
Proof.
  split; [reflexivity|].
  apply (disableHFClocks_waits_for_both ENS_MASK_example ENS_MASK_example
           cmuSelect_LFRCO false (button 1)).
  reflexivity.
Defined.

Lemma nothing_before_the_button_witness :
  past_button_wait
    (ctl (run ENS_MASK_example ENS_MASK_example
            [Run (button 1); Run (button 1); LdmaDone; Run (button 0)]
            reset_state)) = false /\
  forallb is_startup_event
    (trace (run ENS_MASK_example ENS_MASK_example
              [Run (button 1); Run (button 1); LdmaDone; Run (button 0)]
              reset_state)) = true.
Proof.
  split; [reflexivity|].
  apply (nothing_before_the_button ENS_MASK_example ENS_MASK_example).
  reflexivity.
Defined.

(** The trace of [to_halt] has 44 events; the last sets LED1, the one at
    position 32 disables the RTCC. *)
Lemma initialisation_order_witness :
  trace (run ENS_MASK_example ENS_MASK_example to_halt reset_state) =
    take 43 (trace (run ENS_MASK_example ENS_MASK_example to_halt reset_state))
      ++ GPIO_PinOutSet gpioPortB 1 :: [] /\
  existsb is_PB1_output
    (take 43 (trace (run ENS_MASK_example ENS_MASK_example to_halt
                       reset_state))) = true.
Proof.
  assert (trace (run ENS_MASK_example ENS_MASK_example to_halt reset_state) =
          take 43 (trace (run ENS_MASK_example ENS_MASK_example to_halt
                            reset_state))
            ++ GPIO_PinOutSet gpioPortB 1 :: []) as E
    by (vm_compute; reflexivity).
  split; [exact E|].
  destruct (initialisation_order ENS_MASK_example ENS_MASK_example to_halt
              _ _ _ E) as (Hled & _).
  apply Hled. reflexivity.
Defined.

Lemma clock_shutdown_order_witness :
  trace (run ENS_MASK_example ENS_MASK_example to_halt reset_state) =
    take 32 (trace (run ENS_MASK_example ENS_MASK_example to_halt reset_state))
      ++ EN_CLR_write RTCC 1
      :: drop 33 (trace (run ENS_MASK_example ENS_MASK_example to_halt
                           reset_state)) /\
  existsb (is_HF_clear_read HFXO0 ENS_MASK_example)
    (take 32 (trace (run ENS_MASK_example ENS_MASK_example to_halt
                       reset_state))) = true.
Proof.
  assert (trace (run ENS_MASK_example ENS_MASK_example to_halt reset_state) =
          take 32 (trace (run ENS_MASK_example ENS_MASK_example to_halt
                            reset_state))
            ++ EN_CLR_write RTCC 1
            :: drop 33 (trace (run ENS_MASK_example ENS_MASK_example to_halt
                                 reset_state))) as E
    by (vm_compute; reflexivity).
  split; [exact E|].
  destruct (clock_shutdown_order ENS_MASK_example ENS_MASK_example to_halt
              _ _ _ E) as (_ & Hlf & _).
  apply Hlf. reflexivity.
Defined.

(** Not pressed twice, pressed twice, released; HFXO0 still requested once;
    both LF oscillators running once, then LFRCO stopped. *)
Lemma pipeline_reaches_sleep_witness :
  ctl (run ENS_MASK_example ENS_MASK_example
         (map Run
            (button 1 :: [button 1; button 1]
               ++ button 0 :: [button 0]
               ++ button 1
               :: [{| pb0 := 1; hfrco0_status := 0;
                      hfxo0_status := ENS_MASK_example;
                      lfrco_status := 1; lfxo_status := 1 |}]
               ++ button 1
               :: [{| pb0 := 1; hfrco0_status := 0; hfxo0_status := 0;
                      lfrco_status := 1; lfxo_status := 1 |}]
               ++ [lfxo_running]))
         reset_state) = Sleeping.
Proof.
  apply (pipeline_reaches_sleep ENS_MASK_example ENS_MASK_example);
    reflexivity.
Defined.
